(** * Remove-BG: the image compositor and its Streamlit front end

    A shallow embedding of [remove_bg.py].  The program is glue around
    three libraries: Pillow (image objects, [convert], [Image.new],
    [paste]), numpy (pixel arrays) and rembg ([remove], the segmentation
    oracle).  The Pillow operations the program calls are written out
    below, following Pillow's [libImaging]; the oracle, the image decoder
    and the PNG encoder are parameters of the development. *)

From Stdlib Require Import ZArith Lia.
From stdpp Require Import base option list strings.

(** ** Byte arithmetic of libImaging (ImagingUtils.h) *)

Module Imaging.
Local Open Scope Z_scope.

(** [#define CLIP8(v) ((v) <= 0 ? 0 : (v) < 256 ? (v) : 255)] *)
Definition CLIP8 (v : Z) : Z :=
  if v <=? 0 then 0 else if v <? 256 then v else 255.

(** [#define DIV255(a, tmp) (tmp = (a) + 128, ((((tmp) >> 8) + (tmp)) >> 8))] *)
Definition DIV255 (a : Z) : Z :=
  let tmp := a + 128 in Z.shiftr (Z.shiftr tmp 8 + tmp) 8.

(** [#define MULDIV255(a, b, tmp) (tmp = (a) * (b) + 128, ...)] *)
Definition MULDIV255 (a b : Z) : Z := DIV255 (a * b).

(** [#define BLEND(mask, in1, in2, tmp1) DIV255(in1 * (255 - mask) + in2 * mask, tmp1)] *)
Definition BLEND (mask in1 in2 : Z) : Z :=
  DIV255 (in1 * (255 - mask) + in2 * mask).

(** A store into a [UINT8] keeps the low eight bits. *)
Definition to_uint8 (v : Z) : Z := Z.land v 255.

Definition is_uint8 (v : Z) : Prop := 0 <= v <= 255.

End Imaging.

(** ** Pixels, modes and image objects *)

(** A four-band pixel; Pillow stores RGBA, RGBa and CMYK pixels this way
    and numpy sees them as the last axis of an (H, W, 4) uint8 array. *)
Record rgba : Type := Pixel { red : Z; green : Z; blue : Z; alpha : Z }.

Definition rgba_ok (p : rgba) : Prop :=
  Imaging.is_uint8 (red p) ∧ Imaging.is_uint8 (green p) ∧
  Imaging.is_uint8 (blue p) ∧ Imaging.is_uint8 (alpha p).

(** The modes of 8-bit images, palette images included. *)
Inductive Mode : Type :=
| Mode_1 | Mode_L | Mode_LA | Mode_RGB | Mode_RGBA | Mode_RGBa | Mode_CMYK
| Mode_P.

Global Instance Mode_eq_dec : EqDecision Mode.
Proof. solve_decision. Defined.

(** Pixel data, row by row, tagged with the mode it is stored in. *)
Inductive pixels : Type :=
| Data_1 (rows : list (list Z))
| Data_L (rows : list (list Z))
| Data_LA (rows : list (list (Z * Z)))
| Data_RGB (rows : list (list (Z * Z * Z)))
| Data_RGBA (rows : list (list rgba))
| Data_RGBa (rows : list (list rgba))
| Data_CMYK (rows : list (list (Z * Z * Z * Z)))
(** The same modes for an image whose [info] dictionary has a
    'transparency' key, as a PNG with a tRNS chunk opens: a grey level
    for modes 1 and L, a colour for mode RGB. *)
| Data_1_trns (rows : list (list Z)) (transparency : Z)
| Data_L_trns (rows : list (list Z)) (transparency : Z)
| Data_RGB_trns (rows : list (list (Z * Z * Z))) (transparency : Z * Z * Z)
(** A palette image: indices into [palette]; [alphas] holds the alpha
    bytes of the palette entries when the image has a 'transparency'
    key, and is [None] for a palette of mode RGB. *)
| Data_P (rows : list (list Z)) (palette : list (Z * Z * Z))
    (alphas : option (list Z)).

(** A [PIL.Image.Image]: [size] is (width, height). *)
Record Image : Type := mkImage { size : nat * nat; data : pixels }.

Definition width (im : Image) : nat := fst (size im).
Definition height (im : Image) : nat := snd (size im).

Definition mode (im : Image) : Mode :=
  match data im with
  | Data_1 _ => Mode_1
  | Data_L _ => Mode_L
  | Data_LA _ => Mode_LA
  | Data_RGB _ => Mode_RGB
  | Data_RGBA _ => Mode_RGBA
  | Data_RGBa _ => Mode_RGBa
  | Data_CMYK _ => Mode_CMYK
  | Data_1_trns _ _ => Mode_1
  | Data_L_trns _ _ => Mode_L
  | Data_RGB_trns _ _ => Mode_RGB
  | Data_P _ _ _ => Mode_P
  end.

(** The modes that carry an alpha band. *)
Definition has_alpha (m : Mode) : bool :=
  match m with
  | Mode_LA | Mode_RGBA | Mode_RGBa => true
  | _ => false
  end.

(** A grid is [h] rows of [w] pixels. *)
Definition grid_ok {A} (w h : nat) (rows : list (list A)) : Prop :=
  length rows = h ∧ Forall (λ r, length r = w) rows.

Definition at_xy {A} (rows : list (list A)) (x y : nat) : option A :=
  rows !! y ≫= (λ r, r !! x).

Definition grid_map {A B} (f : A → B) (rows : list (list A)) : list (list B) :=
  map (map f) rows.

(** The alpha band of an image, for the modes that have one. *)
Definition alpha_band (im : Image) : option (list (list Z)) :=
  match data im with
  | Data_LA d => Some (grid_map snd d)
  | Data_RGBA d | Data_RGBa d => Some (grid_map alpha d)
  | _ => None
  end.



(** [im.getpixel((x, y))] of an RGBA image. *)
Definition getpixel (im : Image) (x y : nat) : option rgba :=
  match data im with
  | Data_RGBA d => at_xy d x y
  | _ => None
  end.

(** A numpy array of shape (H, W, 4) and dtype uint8, the only kind of
    array the compositor exchanges with rembg.  [shape] is (H, W). *)
Record ndarray : Type := mkArray { shape : nat * nat; elems : list (list rgba) }.

Definition ndarray_ok (a : ndarray) : Prop :=
  grid_ok (snd (shape a)) (fst (shape a)) (elems a).

(** [a[y, x]] *)
Definition item (a : ndarray) (y x : nat) : option rgba := at_xy (elems a) x y.

(** ** The Pillow and numpy operations the program calls *)

(** A Python exception of class [Exception]; [str(e)] is its message. *)
Inductive exn : Type := Exception (msg : string).

Definition str (e : exn) : string := match e with Exception msg => msg end.

(** A background colour as [ImageColor.getrgb] returns it for a
    [#rrggbb] string and as the docstring of [remove_background] asks
    for it: an RGB tuple. *)
Definition color : Type := Z * Z * Z.

Definition color_ok (c : color) : Prop :=
  let '(r, g, b) := c in
  Imaging.is_uint8 r ∧ Imaging.is_uint8 g ∧ Imaging.is_uint8 b.

Module PIL.
Import Imaging.
Local Open Scope Z_scope.

(** *** Convert.c: the per-pixel converters into RGBA *)

Definition bit2rgb (v : Z) : rgba :=
  let c := if v =? 0 then 0 else 255 in Pixel c c c 255.

Definition l2rgb (v : Z) : rgba := Pixel v v v 255.

Definition la2rgb (p : Z * Z) : rgba :=
  let '(l, a) := p in Pixel l l l a.

Definition rgb2rgba (p : Z * Z * Z) : rgba :=
  let '(r, g, b) := p in Pixel r g b 255.

(** [rgba2rgbA]: premultiplied to straight alpha. *)
Definition rgba2rgbA (p : rgba) : rgba :=
  let a := alpha p in
  if (a =? 255) || (a =? 0)
  then Pixel (red p) (green p) (blue p) a
  else Pixel (CLIP8 ((255 * red p) ÷ a)) (CLIP8 ((255 * green p) ÷ a))
             (CLIP8 ((255 * blue p) ÷ a)) a.

Definition cmyk2rgb (p : Z * Z * Z * Z) : rgba :=
  let '(c, m, y, k) := p in
  let nk := 255 - k in
  Pixel (CLIP8 (nk - MULDIV255 c nk)) (CLIP8 (nk - MULDIV255 m nk))
        (CLIP8 (nk - MULDIV255 y nk)) 255.

(** [rgbT2rgba], the second pass of [ImagingConvertTransparent]: a
    converted pixel equal to the transparent colour at alpha 255 gets
    alpha 0. *)
Definition rgbT2rgba (t : Z * Z * Z) (p : rgba) : rgba :=
  let '(r, g, b) := t in
  if (red p =? Z.land r 255) && (green p =? Z.land g 255)
     && (blue p =? Z.land b 255) && (alpha p =? 255)
  then Pixel (red p) (green p) (blue p) 0
  else p.

(** [p2rgba]: the palette entry of the index, with the alpha the
    palette holds for it; entries the palette was not given are black
    and opaque. *)
Definition p2rgba (palette : list (Z * Z * Z)) (alphas : option (list Z))
    (i : Z) : rgba :=
  let '(r, g, b) := default (0, 0, 0) (palette !! Z.to_nat i) in
  let a := match alphas with
           | Some al => default 255 (al !! Z.to_nat i)
           | None => 255
           end in
  Pixel r g b a.

(** [im.convert('RGBA')]: a new image of the same size.  From RGBA it is
    a copy.  With a 'transparency' key the conversion goes through
    [convert_transparent]. *)
Definition convert_RGBA (im : Image) : Image :=
  mkImage (size im)
    (Data_RGBA
       match data im with
       | Data_1 d => grid_map bit2rgb d
       | Data_L d => grid_map l2rgb d
       | Data_LA d => grid_map la2rgb d
       | Data_RGB d => grid_map rgb2rgba d
       | Data_RGBA d => d
       | Data_RGBa d => grid_map rgba2rgbA d
       | Data_CMYK d => grid_map cmyk2rgb d
       | Data_1_trns d t => grid_map (rgbT2rgba (t, t, t) ∘ bit2rgb) d
       | Data_L_trns d t => grid_map (rgbT2rgba (t, t, t) ∘ l2rgb) d
       | Data_RGB_trns d t => grid_map (rgbT2rgba t ∘ rgb2rgba) d
       | Data_P d palette alphas => grid_map (p2rgba palette alphas) d
       end).

(** *** Image.new('RGBA', size, color) *)

(** [getink] for a four-band image and a 3-tuple: alpha defaults to 255
    and every component goes through [CLIP8]. *)
Definition getink (c : color) : rgba :=
  let '(r, g, b) := c in Pixel (CLIP8 r) (CLIP8 g) (CLIP8 b) (CLIP8 255).

Definition new_RGBA (sz : nat * nat) (c : color) : Image :=
  mkImage sz (Data_RGBA (replicate (snd sz) (replicate (fst sz) (getink c)))).

(** *** Paste.c *)

(** One pixel of [paste_mask_RGBA] on a four-band destination: the mask
    is byte 3 of the mask pixel; all four bands of the destination,
    alpha included, are blended with it.  On a destination mode with an
    alpha band the colour bands use a mask raised to 255 where the
    destination pixel is fully transparent. *)
Definition paste_pixel (out inp msk : rgba) : rgba :=
  let m := alpha msk in
  let channel_mask :=
    if m =? 0 then m
    else to_uint8 (255 - (255 - m) * (1 - (255 - alpha out) ÷ 255)) in
  Pixel (to_uint8 (BLEND channel_mask (red out) (red inp)))
        (to_uint8 (BLEND channel_mask (green out) (green inp)))
        (to_uint8 (BLEND channel_mask (blue out) (blue inp)))
        (to_uint8 (BLEND m (alpha out) (alpha inp))).

End PIL.

Definition in_span (d n i : nat) : bool := (d <=? i)%nat && (i <? d + n)%nat.

Module Paste.

(** [paste_mask_RGBA(imOut, imIn, imMask, dx, dy, 0, 0, xsize, ysize, 4)]:
    destination pixel (dx + x, dy + y) is blended with source pixel
    (x, y) for x < xsize and y < ysize. *)
Definition paste_mask_RGBA (out inp msk : list (list rgba))
    (dx dy xsize ysize : nat) : list (list rgba) :=
  imap (λ Y orow,
    if in_span dy ysize Y then
      match inp !! (Y - dy), msk !! (Y - dy) with
      | Some irow, Some mrow =>
          imap (λ X o,
            if in_span dx xsize X then
              match irow !! (X - dx), mrow !! (X - dx) with
              | Some i, Some m => PIL.paste_pixel o i m
              | _, _ => o
              end
            else o) orow
      | _, _ => orow
      end
    else orow) out.

(** [ImagingPaste] with a box whose corner is inside the first quadrant:
    the region is clipped to the destination. *)
Definition ImagingPaste (imOut imIn imMask : Image) (dx0 dy0 dx1 dy1 : nat)
    : exn + Image :=
  let xsize := dx1 - dx0 in
  let ysize := dy1 - dy0 in
  if negb ((xsize =? width imIn)%nat && (ysize =? height imIn)%nat) then
    inl (Exception "images do not match")
  else if negb ((xsize =? width imMask)%nat && (ysize =? height imMask)%nat) then
    inl (Exception "images do not match")
  else
    let xsize := if (width imOut <? dx0 + xsize)%nat then width imOut - dx0 else xsize in
    let ysize := if (height imOut <? dy0 + ysize)%nat then height imOut - dy0 else ysize in
    match data imOut, data imIn, data imMask with
    | Data_RGBA o, Data_RGBA i, Data_RGBA m =>
        inr (mkImage (size imOut)
               (Data_RGBA (paste_mask_RGBA o i m dx0 dy0 xsize ysize)))
    | _, _, Data_RGB _ | _, _, Data_RGB_trns _ _ =>
        inl (Exception "bad transparency mask")
    | _, _, _ => inl (Exception "paste: modes other than RGBA are not modelled")
    end.

(** [self.paste(im, box, mask)] with a 2-tuple box: the lower right
    corner is taken from the size of [im]. *)
Definition paste (self im : Image) (box : nat * nat) (mask : Image) : exn + Image :=
  let '(x0, y0) := box in
  ImagingPaste self im mask x0 y0 (x0 + width im) (y0 + height im).

End Paste.

(** *** numpy *)

(** [np.array(im)]: for a four-band image, a fresh (H, W, 4) array. *)
Definition np_array_of (im : Image) : exn + ndarray :=
  let sh := (height im, width im) in
  match data im with
  | Data_RGBA d | Data_RGBa d => inr (mkArray sh d)
  | Data_CMYK d =>
      inr (mkArray sh (grid_map (λ p, let '(c, m, y, k) := p in Pixel c m y k) d))
  | _ => inl (Exception "np.array: arrays without four bands are not modelled")
  end.

(** [Image.fromarray(a)]: shape (H, W, 4) and uint8 give mode RGBA and
    size (W, H). *)
Definition fromarray (a : ndarray) : Image :=
  mkImage (snd (shape a), fst (shape a)) (Data_RGBA (elems a)).

(** The canvas of colour [c] and size [sz] after the segmented array
    has been pasted on it under its own alpha. *)
Definition composite (sz : nat * nat) (c : color) (seg : ndarray) : exn + Image :=
  Paste.paste (PIL.new_RGBA sz c) (fromarray seg) (0, 0) (fromarray seg).

(** The image [remove_background] returns for a segmented array. *)
Definition processed (im : Image) (bg : option color) (seg : ndarray) : exn + Image :=
  match bg with
  | Some c => composite (size im) c seg
  | None => inr (fromarray seg)
  end.

(** ** The state of a run: the object store and the page *)

(** Image objects live in a store and are named by their address, so
    that an in-place [paste] and the rebinding of a local name can be
    told apart. *)
Definition loc : Type := nat.

Definition bytes : Type := list Byte.byte.

(** Where Streamlit puts an element. *)
Inductive container : Type := Page | Column (i : nat) | Sidebar.

(** What the script asks Streamlit to show. *)
Inductive element : Type :=
| El_page_config (page_title page_icon : string)
| El_title (body : string)
| El_write (body : string)
| El_file_uploader (label : string) (type : list string) (help : string)
| El_radio (label : string) (options : list string) (horizontal : bool)
| El_color_picker (label value : string)
| El_subheader (body : string)
| El_image (image : Image) (use_column_width : bool)
| El_download_button (label : string) (data : bytes)
    (file_name mime help : string)
| El_error (body : string)
| El_info (body : string).

Record world : Type := World { heap : list Image; page : list (container * element) }.

(** Computations that read and write the world and may raise; the
    world reached when an exception is raised is kept, as in Python. *)
Definition M (A : Type) : Type := world → (exn + A) * world.

Definition ret {A} (a : A) : M A := λ w, (inr a, w).

Definition bind {A B} (m : M A) (k : A → M B) : M B :=
  λ w, match m w with
       | (inr a, w') => k a w'
       | (inl e, w') => (inl e, w')
       end.

Definition raise {A} (e : exn) : M A := λ w, (inl e, w).

(** [try: body except Exception as e: handler(e)] *)
Definition try_except {A} (body : M A) (handler : exn → M A) : M A :=
  λ w, match body w with
       | (inr a, w') => (inr a, w')
       | (inl e, w') => handler e w'
       end.

Definition lift {A} (r : exn + A) : M A :=
  match r with inl e => raise e | inr a => ret a end.

Declare Scope py_scope.
Delimit Scope py_scope with py.
Notation "x <- m ;; k" := (bind m (λ x, k))
  (at level 100, m at next level, right associativity) : py_scope.
Notation "m ;;; k" := (bind m (λ _, k))
  (at level 100, right associativity) : py_scope.
Local Open Scope py_scope.

(** *** Image objects in the store *)

Definition alloc (im : Image) : M loc :=
  λ w, (inr (length (heap w)), World (heap w ++ [im]) (page w)).

Definition deref (l : loc) : M Image :=
  λ w, match heap w !! l with
       | Some im => (inr im, w)
       | None => (inl (Exception "dangling reference"), w)
       end.

Definition store (l : loc) (im : Image) : M unit :=
  λ w, (inr tt, World (<[l := im]> (heap w)) (page w)).

Definition Image_mode (l : loc) : M Mode := im <- deref l ;; ret (mode im).
Definition Image_size (l : loc) : M (nat * nat) := im <- deref l ;; ret (size im).

(** [im.convert('RGBA')] returns a new object. *)
Definition Image_convert_RGBA (l : loc) : M loc :=
  im <- deref l ;; alloc (PIL.convert_RGBA im).

Definition Image_new_RGBA (sz : nat * nat) (c : color) : M loc :=
  alloc (PIL.new_RGBA sz c).

Definition Image_fromarray (a : ndarray) : M loc := alloc (fromarray a).

(** [self.paste(im, box, mask)] changes [self] in place. *)
Definition Image_paste (self im : loc) (box : nat * nat) (mask : loc) : M unit :=
  s <- deref self ;;
  i <- deref im ;;
  m <- deref mask ;;
  r <- lift (Paste.paste s i box m) ;;
  store self r.

Definition np_array (l : loc) : M ndarray :=
  im <- deref l ;; lift (np_array_of im).

(** *** Streamlit *)

(** A call into Streamlit that the host accepts: the element is put on
    the page.  [st_emit_on] below is the call under a host that may
    raise. *)
Definition st_emit (c : container) (el : element) : M unit :=
  λ w, (inr tt, World (heap w) (page w ++ [(c, el)])).

(** What the user has entered in the widgets of this run. *)
Record session : Type := Session {
  uploaded_file : option bytes;
  background_option : string;
  color_input : string
}.

Definition newline : string := String (Ascii.ascii_of_nat 10) EmptyString.

(** The objects that existed before the call are the same after it. *)
Definition frame (w w' : world) : Prop :=
  (∀ l, l < length (heap w) → heap w' !! l = heap w !! l) ∧ page w' = page w.

(** ** The program *)

Section Program.

(** [rembg.remove] on an array: the segmentation oracle. *)
Variable remove : ndarray → exn + ndarray.
(** [Image.open] on the uploaded bytes. *)
Variable Image_open : bytes → exn + Image.
(** [ImageColor.getrgb]. *)
Variable getrgb : string → exn + color.
(** [image.save(buffer, format="PNG")] followed by [buffer.getvalue()]. *)
Variable save_PNG : Image → exn + bytes.

(** The input of the oracle, as [remove_background] prepares it. *)
Definition normalize (im : Image) : Image :=
  if bool_decide (mode im ≠ Mode_RGBA) then PIL.convert_RGBA im else im.

(** The store once the input has been normalized: a converted copy is
    a new object, an RGBA input is used as it is. *)
Definition heap_normalized (h : list Image) (im : Image) : list Image :=
  if bool_decide (mode im ≠ Mode_RGBA) then h ++ [PIL.convert_RGBA im] else h.

(** The segmented intermediate result for an input image. *)
Definition segment (im : Image) : exn + ndarray :=
  match np_array_of (normalize im) with
  | inl e => inl e
  | inr input_array => remove input_array
  end.

Definition remove_background (input_image : loc) (background_color : option color)
    : M loc :=
  m <- Image_mode input_image ;;
  input_image <-
    (if bool_decide (m ≠ Mode_RGBA) then Image_convert_RGBA input_image
     else ret input_image) ;;
  input_array <- np_array input_image ;;
  output_array <- lift (remove input_array) ;;
  output_array <-
    (match background_color with
     | Some c =>   (* a 3-tuple is true *)
         sz <- Image_size input_image ;;
         colored_background <- Image_new_RGBA sz c ;;
         src <- Image_fromarray output_array ;;
         msk <- Image_fromarray output_array ;;
         Image_paste colored_background src (0, 0) msk ;;;
         np_array colored_background
     | None => ret output_array
     end) ;;
  output_image <- Image_fromarray output_array ;;
  ret output_image.

(** The array [a] is what a call on the image at [r] hands to the
    oracle: what the oracle answers on [a] is what the call makes of
    it, an exception raised as it is and an array returned as the
    image, whichever oracle is plugged in. *)
Definition handed_to_oracle (r : loc) (w : world) (a : ndarray) : Prop :=
  (∀ (c : option color) (e : exn),
     remove a = inl e → (remove_background r c w).1 = inl e)
  ∧ (∀ seg : ndarray,
       remove a = inr seg →
       ∃ l w', remove_background r None w = (inr l, w')
             ∧ heap w' !! l = Some (fromarray seg)).

(** Lines 64-68 of [main]: the colour is asked for, and parsed, only
    under "Custom Color". *)
Definition pick_background_color (ui : session) : M (option color) :=
  if String.eqb (background_option ui) "Custom Color" then
    st_emit Page (El_color_picker "Choose background color" "#FFFFFF") ;;;
    c <- lift (getrgb (color_input ui)) ;;
    ret (Some c)
  else ret None.

(** Lines 82-105 of [main]: the [try] block and its handler. *)
Definition process (input_image : loc) (background_color : option color) : M unit :=
  try_except
    (output_image <- remove_background input_image background_color ;;
     out <- deref output_image ;;
     st_emit (Column 1) (El_subheader "Processed Image") ;;;
     st_emit (Column 1) (El_image out true) ;;;
     img_byte <- lift (save_PNG out) ;;
     st_emit Page (El_download_button "Download Image" img_byte
       "processed_image.png" "image/png" "Download the processed image"))
    (λ e, st_emit Page (El_error ("An error occurred: " ++ str e))).

(** Lines 70-105 of [main]: what is done with an uploaded file. *)
Definition handle_upload (f : bytes) (background_color : option color) : M unit :=
  im <- lift (Image_open f) ;;
  input_image <- alloc im ;;
  shown <- deref input_image ;;
  st_emit (Column 0) (El_subheader "Original Image") ;;;
  st_emit (Column 0) (El_image shown true) ;;;
  process input_image background_color.

Definition how_to_use : string :=
  "How to use:" ++ newline ++ "1. Upload an image" ++ newline ++
  "2. Choose background option" ++ newline ++
  "3. Select a custom color (optional)" ++ newline ++
  "4. Download the processed image".

Definition main (ui : session) : M unit :=
  st_emit Page (El_page_config "Background Remover" ":scissors:") ;;;
  st_emit Page (El_title "🖼️ Background Removal App") ;;;
  st_emit Page (El_write
    "Upload an image, remove its background, and optionally replace it with a custom color!") ;;;
  st_emit Page (El_write "Great for linkedIn profile pictures!") ;;;
  st_emit Page (El_file_uploader "Choose an image..."
    ["jpg"; "jpeg"; "png"; "webp"] "Upload an image to remove its background") ;;;
  st_emit Page (El_radio "Background Option:" ["Transparent"; "Custom Color"] true) ;;;
  background_color <- pick_background_color ui ;;
  (match uploaded_file ui with
   | Some f => handle_upload f background_color
   | None => ret tt
   end) ;;;
  st_emit Sidebar (El_info how_to_use).

(** *** The script under a host that may refuse an element

    A call into Streamlit can raise ([st.image] on an image it cannot
    render, a widget whose key is taken).  [host c el] is the exception
    the host raises when asked to put [el] into [c], if any; [main] is
    the script under a host that never raises. *)

Section Host.
Variable host : container → element → option exn.

Definition st_emit_on (c : container) (el : element) : M unit :=
  match host c el with
  | Some e => raise e
  | None => st_emit c el
  end.

Definition pick_background_color_on (ui : session) : M (option color) :=
  if String.eqb (background_option ui) "Custom Color" then
    st_emit_on Page (El_color_picker "Choose background color" "#FFFFFF") ;;;
    c <- lift (getrgb (color_input ui)) ;;
    ret (Some c)
  else ret None.

(** Lines 83-102: the body of the [try] block. *)
Definition process_body_on (input_image : loc) (background_color : option color)
    : M unit :=
  output_image <- remove_background input_image background_color ;;
  out <- deref output_image ;;
  st_emit_on (Column 1) (El_subheader "Processed Image") ;;;
  st_emit_on (Column 1) (El_image out true) ;;;
  img_byte <- lift (save_PNG out) ;;
  st_emit_on Page (El_download_button "Download Image" img_byte
    "processed_image.png" "image/png" "Download the processed image").


Definition process_on (input_image : loc) (background_color : option color)
    : M unit :=
  try_except (process_body_on input_image background_color)
    (λ e, st_emit_on Page (El_error ("An error occurred: " ++ str e))).

Definition handle_upload_on (f : bytes) (background_color : option color)
    : M unit :=
  im <- lift (Image_open f) ;;
  input_image <- alloc im ;;
  shown <- deref input_image ;;
  st_emit_on (Column 0) (El_subheader "Original Image") ;;;
  st_emit_on (Column 0) (El_image shown true) ;;;
  process_on input_image background_color.

Definition main_on (ui : session) : M unit :=
  st_emit_on Page (El_page_config "Background Remover" ":scissors:") ;;;
  st_emit_on Page (El_title "🖼️ Background Removal App") ;;;
  st_emit_on Page (El_write
    "Upload an image, remove its background, and optionally replace it with a custom color!") ;;;
  st_emit_on Page (El_write "Great for linkedIn profile pictures!") ;;;
  st_emit_on Page (El_file_uploader "Choose an image..."
    ["jpg"; "jpeg"; "png"; "webp"] "Upload an image to remove its background") ;;;
  st_emit_on Page (El_radio "Background Option:" ["Transparent"; "Custom Color"] true) ;;;
  background_color <- pick_background_color_on ui ;;
  (match uploaded_file ui with
   | Some f => handle_upload_on f background_color
   | None => ret tt
   end) ;;;
  st_emit_on Sidebar (El_info how_to_use).

End Host.

(** The colour [main] hands to [remove_background] for the choices of
    the user. *)
Definition selected (ui : session) (bg : option color) : Prop :=
  match bg with
  | Some c => background_option ui = "Custom Color"
              ∧ getrgb (color_input ui) = inr c
  | None => background_option ui ≠ "Custom Color"
  end.

(** *** What a run puts on the page *)

Definition error_box (e : exn) : container * element :=
  (Page, El_error ("An error occurred: " ++ str e)).

Definition download_button (img_byte : bytes) : container * element :=
  (Page, El_download_button "Download Image" img_byte
           "processed_image.png" "image/png" "Download the processed image").

Definition header_elements : list (container * element) :=
  [ (Page, El_page_config "Background Remover" ":scissors:");
    (Page, El_title "🖼️ Background Removal App");
    (Page, El_write
       "Upload an image, remove its background, and optionally replace it with a custom color!");
    (Page, El_write "Great for linkedIn profile pictures!");
    (Page, El_file_uploader "Choose an image..."
       ["jpg"; "jpeg"; "png"; "webp"] "Upload an image to remove its background");
    (Page, El_radio "Background Option:" ["Transparent"; "Custom Color"] true) ].

Definition picker_elements (bg : option color) : list (container * element) :=
  match bg with
  | Some _ => [(Page, El_color_picker "Choose background color" "#FFFFFF")]
  | None => []
  end.

Definition original_elements (im : Image) : list (container * element) :=
  [ (Column 0, El_subheader "Original Image"); (Column 0, El_image im true) ].


(** The elements of the [try] block and its handler, by outcome. *)
Definition process_elements (im : Image) (bg : option color)
    : list (container * element) :=
  match segment im with
  | inl e => [error_box e]
  | inr seg =>
      match processed im bg seg with
      | inl e => [error_box e]
      | inr out =>
          [ (Column 1, El_subheader "Processed Image");
            (Column 1, El_image out true) ]
          ++ match save_PNG out with
             | inl e => [error_box e]
             | inr img_byte => [download_button img_byte]
             end
      end
  end.

End Program.

(** ** Sample data *)

Module Example.
Local Open Scope Z_scope.

(** A 2 x 1 RGB photo: a red subject pixel and a dark backdrop pixel. *)
Definition photo : Image :=
  mkImage (2%nat, 1%nat) (Data_RGB [[(200, 10, 10); (5, 5, 5)]]).

(** A grey image with its own alpha band. *)
Definition veiled : Image :=
  mkImage (2%nat, 1%nat) (Data_LA [[(90, 0); (30, 77)]]).

(** A segmentation that keeps reddish pixels and clears the others. *)
Definition cutout (a : ndarray) : exn + ndarray :=
  inr (mkArray (shape a)
         (grid_map (λ p, if 128 <=? red p then p else Pixel 0 0 0 0) (elems a))).

(** What [cutout] answers for the photo. *)
Definition cut : ndarray :=
  mkArray (1%nat, 2%nat) [[Pixel 200 10 10 255; Pixel 0 0 0 0]].

(** A segmentation with a soft edge: every pixel is half transparent. *)
Definition soft_edge (a : ndarray) : exn + ndarray :=
  inr (mkArray (shape a)
         (grid_map (λ p, Pixel (red p) (green p) (blue p) 128) (elems a))).

(** A segmentation that answers with a 1 x 1 array whatever it is given. *)
Definition thumbnail (a : ndarray) : exn + ndarray :=
  inr (mkArray (1%nat, 1%nat) [[Pixel 9 9 9 255]]).

(** A segmentation that cannot run. *)
Definition broken (a : ndarray) : exn + ndarray :=
  inl (Exception "onnxruntime: model not found").

Definition lime : color := (0, 255, 0).

Definition w0 : world := World [photo] [].

(** A decoder that knows one file, and one that rejects every file. *)
Definition upload : bytes := [Byte.xff; Byte.xd8; Byte.xff; Byte.xe0].

Definition open_photo (f : bytes) : exn + Image := inr photo.

Definition cannot_open (f : bytes) : exn + Image :=
  inl (Exception "cannot identify image file").

(** [ImageColor.getrgb] on the two strings used below. *)
Definition getrgb (s : string) : exn + color :=
  if String.eqb s "#00FF00" then inr lime
  else if String.eqb s "#FFFFFF" then inr (255, 255, 255)
  else inl (Exception "unknown color specifier").

(** An encoder that writes the PNG signature only, and one that fails. *)
Definition save_stub (im : Image) : exn + bytes :=
  inr [Byte.x89; Byte.x50; Byte.x4e; Byte.x47].

Definition save_fails (im : Image) : exn + bytes :=
  inl (Exception "cannot write mode").

Definition transparent_session : session :=
  Session (Some upload) "Transparent" "#FFFFFF".

Definition lime_session : session :=
  Session (Some upload) "Custom Color" "#00FF00".

Definition blank : world := World [] [].

End Example.

(** More sample data: runs of the script without an upload, with a
    colour string that does not parse, and with an encoder that fails. *)
Module Example2.
Import Example.
Local Open Scope Z_scope.

Definition idle_session : session := Session None "Custom Color" "#00FF00".

Definition bad_color_session : session :=
  Session (Some upload) "Custom Color" "chartreuse-ish".

(** An image that is RGBA already. *)
Definition sticker : Image :=
  mkImage (2%nat, 1%nat) (Data_RGBA [[Pixel 200 10 10 255; Pixel 7 8 9 40]]).

(** The photo as a PNG with a tRNS chunk opens: mode RGB, and the
    backdrop colour under the 'transparency' key. *)
Definition keyed : Image :=
  mkImage (2%nat, 1%nat)
    (Data_RGB_trns [[(200, 10, 10); (5, 5, 5)]] (5, 5, 5)).

(** A two-colour palette image without a 'transparency' key. *)
Definition indexed : Image :=
  mkImage (2%nat, 1%nat) (Data_P [[1; 0]] [(200, 10, 10); (5, 5, 5)] None).

(** An oracle that answers with the array it is handed. *)
Definition echo (a : ndarray) : exn + ndarray := inr a.


Definition no_second_image (c : container) (el : element) : option exn :=
  match c, el with
  | Column 1, El_image _ _ => Some (Exception "cannot render image")
  | _, _ => None
  end.

End Example2.

(** * Properties *)

(** ** Byte arithmetic *)

Module ImagingFacts.
Import Imaging.
Local Open Scope Z_scope.

Lemma CLIP8_id v : is_uint8 v → CLIP8 v = v.
Proof.
  unfold is_uint8, CLIP8. intros [Hlo Hhi].
  destruct (Z.leb_spec v 0); [lia|].
  destruct (Z.ltb_spec v 256); lia.
Qed.

Lemma CLIP8_range v : is_uint8 (CLIP8 v).
Proof.
  unfold is_uint8, CLIP8.
  destruct (Z.leb_spec v 0); [lia|].
  destruct (Z.ltb_spec v 256); lia.
Qed.

Lemma to_uint8_id v : is_uint8 v → to_uint8 v = v.
Proof.
  unfold is_uint8, to_uint8. intros Hv.
  change 255 with (Z.ones 8). rewrite Z.land_ones by lia.
  apply Z.mod_small. change (2 ^ 8) with 256. lia.
Qed.

(** Dividing [255 * c] by 255 through the shifts is exact on bytes. *)
Lemma DIV255_exact c : is_uint8 c → DIV255 (c * 255) = c.
Proof.
  unfold is_uint8, DIV255. intros Hc. cbv zeta.
  rewrite !Z.shiftr_div_pow2 by lia. change (2 ^ 8) with 256.
  Z.to_euclidean_division_equations. lia.
Qed.

(** A mask of 0 keeps the destination byte. *)
Lemma BLEND_mask_0 v w : is_uint8 v → BLEND 0 v w = v.
Proof.
  intros Hv. unfold BLEND.
  replace (v * (255 - 0) + w * 0) with (v * 255) by lia.
  by apply DIV255_exact.
Qed.

End ImagingFacts.

(** ** Pixel grids *)

Section Grids.
Context {A B : Type}.

Lemma at_xy_replicate (a : A) (w h x y : nat) :
  at_xy (replicate h (replicate w a)) x y
  = if bool_decide (x < w ∧ y < h) then Some a else None.
Proof.
  unfold at_xy. case_bool_decide as Hxy.
  - destruct Hxy as [Hx Hy].
    rewrite (lookup_replicate_2 h _ y Hy). simpl.
    by apply lookup_replicate_2.
  - destruct (decide (y < h)) as [Hy|Hy].
    + rewrite (lookup_replicate_2 h _ y Hy). simpl.
      apply lookup_replicate_None. lia.
    + assert (replicate h (replicate w a) !! y = None) as ->
        by (apply lookup_replicate_None; lia).
      done.
Qed.

Lemma at_xy_grid_map (f : A → B) (d : list (list A)) (x y : nat) :
  at_xy (grid_map f d) x y = f <$> at_xy d x y.
Proof.
  unfold at_xy, grid_map. rewrite list_lookup_fmap.
  destruct (d !! y) as [row|]; simpl; [|done].
  apply list_lookup_fmap.
Qed.

Lemma at_xy_bounds (w h : nat) (d : list (list A)) (x y : nat) (a : A) :
  grid_ok w h d → at_xy d x y = Some a → x < w ∧ y < h.
Proof.
  unfold grid_ok, at_xy. intros [Hlen Hrows] Hat.
  destruct (d !! y) as [row|] eqn:Hrow; simpl in Hat; [|done].
  split.
  - rewrite Forall_lookup in Hrows. rewrite <- (Hrows _ _ Hrow).
    by eapply lookup_lt_Some.
  - rewrite <- Hlen. by eapply lookup_lt_Some.
Qed.



End Grids.

Lemma grid_map_compose {A B C} (f : A → B) (g : B → C) (d : list (list A)) :
  grid_map g (grid_map f d) = grid_map (g ∘ f) d.
Proof.
  unfold grid_map. rewrite map_map. apply map_ext. intros row.
  by rewrite map_map.
Qed.

Lemma grid_map_ext {A B} (f g : A → B) (d : list (list A)) :
  (∀ a, f a = g a) → grid_map f d = grid_map g d.
Proof.
  intros Hfg. unfold grid_map. apply map_ext. intros row. by apply map_ext.
Qed.

(** ** Pasting at the origin *)

Lemma in_span_0 (n i : nat) : in_span 0 n i = bool_decide (i < n).
Proof.
  unfold in_span. simpl.
  case_bool_decide as Hi.
  - by apply Nat.ltb_lt.
  - by apply Nat.ltb_ge; lia.
Qed.

(** The destination pixel at (x, y) after a paste of [s] under its own
    alpha at the origin. *)
Lemma at_xy_paste_self (o s : list (list rgba)) (xsize ysize x y : nat) :
  at_xy (Paste.paste_mask_RGBA o s s 0 0 xsize ysize) x y
  = (λ p, if bool_decide (x < xsize ∧ y < ysize) then
            match at_xy s x y with
            | Some q => PIL.paste_pixel p q q
            | None => p
            end
          else p) <$> at_xy o x y.
Proof.
  unfold at_xy, Paste.paste_mask_RGBA.
  rewrite list_lookup_imap.
  destruct (o !! y) as [orow|]; simpl; [|done].
  rewrite !in_span_0, !Nat.sub_0_r.
  destruct (decide (y < ysize)) as [Hy|Hy].
  - rewrite (bool_decide_eq_true_2 _ Hy).
    destruct (s !! y) as [srow|]; simpl.
    + rewrite list_lookup_imap.
      destruct (orow !! x) as [p|]; simpl; [|done].
      rewrite in_span_0, Nat.sub_0_r.
      destruct (decide (x < xsize)) as [Hx|Hx].
      * rewrite (bool_decide_eq_true_2 _ Hx).
        rewrite (bool_decide_eq_true_2 (x < xsize ∧ y < ysize)) by done.
        by destruct (srow !! x).
      * rewrite (bool_decide_eq_false_2 _ Hx).
        by rewrite (bool_decide_eq_false_2 (x < xsize ∧ y < ysize)) by tauto.
    + destruct (orow !! x) as [p|]; simpl; [|done].
      by case_bool_decide.
  - rewrite (bool_decide_eq_false_2 _ Hy).
    destruct (orow !! x) as [p|]; simpl; [|done].
    by rewrite (bool_decide_eq_false_2 (x < xsize ∧ y < ysize)) by tauto.
Qed.

(** ** The composite image *)

Lemma composite_eq (sz : nat * nat) (c : color) (seg : ndarray) :
  composite sz c seg
  = inr (mkImage sz (Data_RGBA
      (Paste.paste_mask_RGBA
         (replicate (snd sz) (replicate (fst sz) (PIL.getink c)))
         (elems seg) (elems seg) 0 0
         (if fst sz <? snd (shape seg) then fst sz else snd (shape seg))
         (if snd sz <? fst (shape seg) then snd sz else fst (shape seg))))).
Proof.
  unfold composite, Paste.paste, Paste.ImagingPaste, fromarray, PIL.new_RGBA,
    width, height.
  simpl. rewrite !Nat.sub_0_r, !Nat.eqb_refl. simpl.
  by destruct (fst sz <? snd (shape seg)), (snd sz <? fst (shape seg)).
Qed.

Lemma composite_size (sz : nat * nat) (c : color) (seg : ndarray) (P : Image) :
  composite sz c seg = inr P → size P = sz.
Proof. rewrite composite_eq. by intros [= <-]. Qed.

Lemma composite_mode (sz : nat * nat) (c : color) (seg : ndarray) (P : Image) :
  composite sz c seg = inr P → mode P = Mode_RGBA.
Proof. rewrite composite_eq. by intros [= <-]. Qed.

(** Every pixel of the composite: the ink where the segmented array has
    no pixel, the blend of ink and segmented pixel elsewhere. *)
Lemma composite_getpixel (sz : nat * nat) (c : color) (seg : ndarray)
    (P : Image) (x y : nat) :
  composite sz c seg = inr P →
  getpixel P x y
  = if bool_decide (x < fst sz ∧ y < snd sz) then
      Some (if bool_decide (x < snd (shape seg) ∧ y < fst (shape seg)) then
              match item seg y x with
              | Some q => PIL.paste_pixel (PIL.getink c) q q
              | None => PIL.getink c
              end
            else PIL.getink c)
    else None.
Proof.
  rewrite composite_eq. intros [= <-]. unfold getpixel, item. simpl.
  rewrite at_xy_paste_self, at_xy_replicate.
  assert (Hext : (x < (if fst sz <? snd (shape seg) then fst sz else snd (shape seg))
                  ∧ y < (if snd sz <? fst (shape seg) then snd sz else fst (shape seg)))
                 ↔ (x < fst sz ∧ y < snd sz)
                   ∧ (x < snd (shape seg) ∧ y < fst (shape seg))).
  { destruct (Nat.ltb_spec (fst sz) (snd (shape seg))),
             (Nat.ltb_spec (snd sz) (fst (shape seg))); lia. }
  rewrite (bool_decide_ext _ _ Hext). clear Hext.
  destruct (decide (x < fst sz ∧ y < snd sz)) as [Hin|Hin].
  - rewrite (bool_decide_eq_true_2 (x < fst sz ∧ y < snd sz)) by done. simpl.
    f_equal.
    destruct (decide (x < snd (shape seg) ∧ y < fst (shape seg))) as [Hs|Hs].
    + rewrite (bool_decide_eq_true_2 (x < snd (shape seg) ∧ y < fst (shape seg))) by done.
      by rewrite bool_decide_eq_true_2 by done.
    + rewrite (bool_decide_eq_false_2 (x < snd (shape seg) ∧ y < fst (shape seg))) by done.
      by rewrite bool_decide_eq_false_2 by tauto.
  - by rewrite (bool_decide_eq_false_2 (x < fst sz ∧ y < snd sz)) by done.
Qed.

(** ** Running the compositor *)

Lemma np_array_fromarray (a : ndarray) : np_array_of (fromarray a) = inr a.
Proof. by destruct a as [[h w] d]. Qed.


Lemma size_normalize (im : Image) : size (normalize im) = size im.
Proof. unfold normalize. by case_bool_decide. Qed.

Section Run.
Variable remove : ndarray → exn + ndarray.

Implicit Types (w : world) (r l : loc) (im : Image) (e : exn).

Lemma bind_ok {A B} (m : M A) (k : A → M B) w w' (a : A) :
  m w = (inr a, w') → bind m k w = k a w'.
Proof. unfold bind. by intros ->. Qed.

Lemma bind_raise {A B} (m : M A) (k : A → M B) w w' e :
  m w = (inl e, w') → bind m k w = (inl e, w').
Proof. unfold bind. by intros ->. Qed.

Lemma deref_ok w l im : heap w !! l = Some im → deref l w = (inr im, w).
Proof. unfold deref. by intros ->. Qed.

Lemma Image_mode_ok w l im :
  heap w !! l = Some im → Image_mode l w = (inr (mode im), w).
Proof. intros Hl. unfold Image_mode. by rewrite (bind_ok _ _ _ _ _ (deref_ok _ _ _ Hl)). Qed.

Lemma Image_size_ok w l im :
  heap w !! l = Some im → Image_size l w = (inr (size im), w).
Proof. intros Hl. unfold Image_size. by rewrite (bind_ok _ _ _ _ _ (deref_ok _ _ _ Hl)). Qed.

Lemma np_array_ok w l im (a : ndarray) :
  heap w !! l = Some im → np_array_of im = inr a → np_array l w = (inr a, w).
Proof.
  intros Hl Ha. unfold np_array.
  rewrite (bind_ok _ _ _ _ _ (deref_ok _ _ _ Hl)). by rewrite Ha.
Qed.

Lemma Image_convert_RGBA_ok w l im :
  heap w !! l = Some im →
  Image_convert_RGBA l w
  = (inr (length (heap w)), World (heap w ++ [PIL.convert_RGBA im]) (page w)).
Proof.
  intros Hl. unfold Image_convert_RGBA.
  by rewrite (bind_ok _ _ _ _ _ (deref_ok _ _ _ Hl)).
Qed.

Lemma Image_paste_ok w self src msk (s i m P : Image) :
  heap w !! self = Some s → heap w !! src = Some i → heap w !! msk = Some m →
  Paste.paste s i (0, 0) m = inr P →
  Image_paste self src (0, 0) msk w
  = (inr tt, World (<[self := P]> (heap w)) (page w)).
Proof.
  intros Hs Hi Hm HP. unfold Image_paste.
  rewrite (bind_ok _ _ _ _ _ (deref_ok _ _ _ Hs)).
  rewrite (bind_ok _ _ _ _ _ (deref_ok _ _ _ Hi)).
  rewrite (bind_ok _ _ _ _ _ (deref_ok _ _ _ Hm)).
  by rewrite HP.
Qed.

(** The normalization steps of [remove_background] leave the normalized
    image at a known address of the store. *)
Lemma normalize_ok w r im :
  heap w !! r = Some im →
  ∃ l, (if bool_decide (mode im ≠ Mode_RGBA) then Image_convert_RGBA r else ret r) w
       = (inr l, World (heap_normalized (heap w) im) (page w))
     ∧ heap_normalized (heap w) im !! l = Some (normalize im)
     ∧ l < length (heap_normalized (heap w) im).
Proof.
  intros Hr. unfold heap_normalized, normalize.
  case_bool_decide as Hm.
  - exists (length (heap w)). rewrite (Image_convert_RGBA_ok _ _ _ Hr).
    split; [done|]. split.
    + by apply list_lookup_middle.
    + rewrite length_app. simpl. lia.
  - exists r. destruct w as [h p]. simpl in *. split; [done|]. split; [done|].
    by eapply lookup_lt_Some.
Qed.

Lemma heap_normalized_lookup (h : list Image) im l :
  l < length h → heap_normalized h im !! l = h !! l.
Proof.
  intros Hl. unfold heap_normalized. case_bool_decide; [|done].
  by apply lookup_app_l.
Qed.

Lemma heap_normalized_length (h : list Image) im :
  length h ≤ length (heap_normalized h im).
Proof.
  unfold heap_normalized. case_bool_decide; [|done].
  rewrite length_app. lia.
Qed.

Lemma np_array_normalize im :
  ∃ a, np_array_of (normalize im) = inr a ∧ shape a = (height im, width im).
Proof.
  unfold normalize. destruct im as [sz d].
  destruct d; simpl; eexists; (split; [reflexivity|done]).
Qed.

Lemma run_oracle_fails w r im (c : option color) e :
  heap w !! r = Some im →
  segment remove im = inl e →
  remove_background remove r c w
  = (inl e, World (heap_normalized (heap w) im) (page w)).
Proof.
  intros Hr Hseg. unfold remove_background.
  rewrite (bind_ok _ _ _ _ _ (Image_mode_ok _ _ _ Hr)).
  destruct (normalize_ok _ _ _ Hr) as (l & Hnorm & Hl & _).
  rewrite (bind_ok _ _ _ _ _ Hnorm).
  unfold segment in Hseg.
  destruct (np_array_normalize im) as (a & Ha & _). rewrite Ha in Hseg.
  erewrite bind_ok by (eapply np_array_ok; [exact Hl|exact Ha]).
  erewrite bind_raise; [done|]. by rewrite Hseg.
Qed.

Lemma run_transparent w r im (seg : ndarray) :
  heap w !! r = Some im →
  segment remove im = inr seg →
  remove_background remove r None w
  = (inr (length (heap_normalized (heap w) im)),
     World (heap_normalized (heap w) im ++ [fromarray seg]) (page w)).
Proof.
  intros Hr Hseg. unfold remove_background.
  rewrite (bind_ok _ _ _ _ _ (Image_mode_ok _ _ _ Hr)).
  destruct (normalize_ok _ _ _ Hr) as (l & Hnorm & Hl & _).
  rewrite (bind_ok _ _ _ _ _ Hnorm).
  unfold segment in Hseg.
  destruct (np_array_normalize im) as (a & Ha & _). rewrite Ha in Hseg.
  erewrite bind_ok by (eapply np_array_ok; [exact Hl|exact Ha]).
  erewrite bind_ok by (by rewrite Hseg).
  done.
Qed.

Lemma run_color w r im (col : color) (seg : ndarray) (P : Image) :
  heap w !! r = Some im →
  segment remove im = inr seg →
  composite (size im) col seg = inr P →
  remove_background remove r (Some col) w
  = (inr (length (heap_normalized (heap w) im) + 3),
     World (heap_normalized (heap w) im ++ [P; fromarray seg; fromarray seg; P])
           (page w)).
Proof.
  intros Hr Hseg HP. unfold remove_background.
  rewrite (bind_ok _ _ _ _ _ (Image_mode_ok _ _ _ Hr)).
  destruct (normalize_ok _ _ _ Hr) as (l & Hnorm & Hl & Hlt).
  rewrite (bind_ok _ _ _ _ _ Hnorm).
  unfold segment in Hseg.
  destruct (np_array_normalize im) as (a & Ha & _). rewrite Ha in Hseg.
  erewrite bind_ok by (eapply np_array_ok; [exact Hl|exact Ha]).
  erewrite bind_ok by (by rewrite Hseg).
  set (h1 := heap_normalized (heap w) im) in *.
  pose proof (composite_mode _ _ _ _ HP) as Hmode.
  assert (HarrP : np_array_of P
                  = inr (mkArray (height P, width P)
                           match data P with Data_RGBA d => d | _ => [] end))
    by (destruct P as [szP dP]; by destruct dP).
  erewrite bind_ok; cycle 1.
  { erewrite bind_ok by (eapply Image_size_ok; exact Hl).
    rewrite size_normalize.
    unfold Image_new_RGBA, Image_fromarray.
    erewrite bind_ok by reflexivity. simpl.
    erewrite bind_ok by reflexivity. simpl.
    erewrite bind_ok by reflexivity. simpl.
    rewrite <- !(assoc_L (++)). simpl.
    rewrite !length_app. simpl.
    erewrite bind_ok.
    2: { eapply Image_paste_ok; [| | |exact HP]; simpl.
         - by apply list_lookup_middle.
         - rewrite (cons_middle (PIL.new_RGBA _ _)), (assoc_L (++)).
           apply list_lookup_middle. rewrite length_app. simpl. lia.
         - rewrite (cons_middle (PIL.new_RGBA _ _)), (cons_middle (fromarray _)),
             !(assoc_L (++)).
           apply list_lookup_middle. rewrite !length_app. simpl. lia. }
    simpl. rewrite insert_app_r_alt by lia. rewrite Nat.sub_diag. simpl.
    eapply np_array_ok; [|exact HarrP]. simpl. by apply list_lookup_middle. }
  unfold Image_fromarray, alloc, bind, ret. simpl. f_equal.
  - f_equal. rewrite !length_app. simpl. lia.
  - f_equal. rewrite <- (assoc_L (++)). simpl. repeat f_equal.
    destruct P as [[wP hP] dP]. by destruct dP.
Qed.

End Run.

(** ** What a call of [remove_background] returns and leaves behind *)

Lemma lookup_app_plus {A} (l1 l2 : list A) (i : nat) :
  (l1 ++ l2) !! (length l1 + i) = l2 !! i.
Proof. rewrite lookup_app_r by lia. f_equal. lia. Qed.

Section Outcome.
Variable remove : ndarray → exn + ndarray.
Implicit Types (w : world) (r l : loc) (im : Image) (e : exn).

Lemma frame_normalized w im (tail : list Image) :
  frame w (World (heap_normalized (heap w) im ++ tail) (page w)).
Proof.
  split; [|done]. intros l Hl. simpl.
  rewrite lookup_app_l by (pose proof (heap_normalized_length (heap w) im); lia).
  by apply heap_normalized_lookup.
Qed.

Lemma remove_background_fails w r im (c : option color) e :
  heap w !! r = Some im →
  segment remove im = inl e →
  ∃ w', remove_background remove r c w = (inl e, w') ∧ frame w w'.
Proof.
  intros Hr Hseg. eexists. split; [by apply run_oracle_fails|].
  rewrite <- (app_nil_r (heap_normalized _ _)). apply frame_normalized.
Qed.

Lemma remove_background_transparent w r im (seg : ndarray) :
  heap w !! r = Some im →
  segment remove im = inr seg →
  ∃ l w', remove_background remove r None w = (inr l, w')
        ∧ heap w' !! l = Some (fromarray seg) ∧ frame w w'.
Proof.
  intros Hr Hseg. eexists _, _. split; [by apply run_transparent|].
  split; [|apply frame_normalized]. simpl.
  by apply list_lookup_middle.
Qed.

Lemma remove_background_color w r im (col : color) (seg : ndarray) :
  heap w !! r = Some im →
  segment remove im = inr seg →
  ∃ l w' out, remove_background remove r (Some col) w = (inr l, w')
        ∧ heap w' !! l = Some out
        ∧ composite (size im) col seg = inr out
        ∧ frame w w'.
Proof.
  intros Hr Hseg.
  destruct (composite (size im) col seg) as [e|P] eqn:HP;
    [by rewrite composite_eq in HP|].
  eexists _, _, P. split; [by eapply run_color|].
  split; [|split; [done|apply frame_normalized]]. simpl.
  by rewrite lookup_app_plus.
Qed.

End Outcome.

(** ** Blending one pixel *)

Module PasteFacts.
Import Imaging ImagingFacts.
Local Open Scope Z_scope.

Lemma getink_ok (c : color) : rgba_ok (PIL.getink c).
Proof.
  destruct c as [[r g] b]. unfold rgba_ok. simpl.
  repeat split; apply CLIP8_range.
Qed.

Lemma getink_alpha (c : color) : alpha (PIL.getink c) = 255.
Proof. by destruct c as [[r g] b]. Qed.

Lemma getink_id (r g b : Z) : color_ok (r, g, b) → PIL.getink (r, g, b) = Pixel r g b 255.
Proof.
  intros (Hr & Hg & Hb). unfold PIL.getink.
  by rewrite !CLIP8_id.
Qed.

(** Under a mask of 0 the destination pixel stays as it is. *)
Lemma paste_pixel_transparent (o q : rgba) :
  rgba_ok o → alpha q = 0 → PIL.paste_pixel o q q = o.
Proof.
  intros (Hr & Hg & Hb & Ha) Hq. unfold PIL.paste_pixel. rewrite Hq. simpl.
  rewrite !BLEND_mask_0, !to_uint8_id by done.
  by destruct o.
Qed.

(** The alpha band is blended like the colour bands. *)
Lemma paste_pixel_alpha (o q : rgba) :
  alpha (PIL.paste_pixel o q q) = to_uint8 (BLEND (alpha q) (alpha o) (alpha q)).
Proof. done. Qed.

Lemma blend_alpha_opaque (a : Z) :
  a = 0 ∨ a = 255 → to_uint8 (BLEND a 255 a) = 255.
Proof. by intros [-> | ->]. Qed.

End PasteFacts.

(** * The compositor *)

Section Compositor.
Variable remove : ndarray → exn + ndarray.
Implicit Types (w : world) (r l : loc) (im : Image) (e : exn).

(** C1.  With a requested colour (r, g, b), wherever the segmented
    result has alpha 0 the output of [remove_background] has the pixel
    (r, g, b, 255).  The oracle returns an array of the shape of its
    input, as its contract says. *)
Theorem transparent_pixel_gets_color w r im (cr cg cb : Z) (seg : ndarray)
    (x y : nat) (p : rgba) :
  heap w !! r = Some im →
  segment remove im = inr seg →
  ndarray_ok seg →
  shape seg = (height im, width im) →
  color_ok (cr, cg, cb) →
  item seg y x = Some p →
  alpha p = 0%Z →
  ∃ l w' out,
    remove_background remove r (Some (cr, cg, cb)) w = (inr l, w')
    ∧ heap w' !! l = Some out
    ∧ getpixel out x y = Some (Pixel cr cg cb 255).
Proof.
  intros Hr Hseg Hok Hshape Hc Hp Halpha.
  destruct (remove_background_color remove w r im (cr, cg, cb) seg Hr Hseg)
    as (l & w' & out & Hrun & Hout & Hcomp & _).
  exists l, w', out. split; [done|]. split; [done|].
  rewrite (composite_getpixel _ _ _ _ x y Hcomp), Hp.
  pose proof (at_xy_bounds _ _ _ _ _ _ Hok Hp) as Hin.
  rewrite Hshape in Hin |- *. unfold width, height in Hin |- *.
  cbn [fst snd] in Hin |- *.
  rewrite !bool_decide_eq_true_2 by done.
  rewrite PasteFacts.paste_pixel_transparent
    by (done || apply PasteFacts.getink_ok).
  by rewrite PasteFacts.getink_id.
Qed.

(** The alpha of the output.  With a requested colour the alpha of an
    output pixel is the blend [BLEND(a, 255, a)] of the canvas alpha 255
    and the segmented alpha [a] under the mask [a]: 255 where [a] is 0 or
    255 and where the segmented result has no pixel.  Without a colour
    the output carries the alpha band of the segmented result. *)
Theorem output_opacity w r im (seg : ndarray) :
  heap w !! r = Some im →
  segment remove im = inr seg →
  ndarray_ok seg →
  (∀ c : color, ∃ l w' out,
      remove_background remove r (Some c) w = (inr l, w')
      ∧ heap w' !! l = Some out
      ∧ ∀ x y q, getpixel out x y = Some q →
          match item seg y x with
          | Some p =>
              alpha q = Imaging.to_uint8 (Imaging.BLEND (alpha p) 255 (alpha p))
              ∧ (alpha p = 0%Z ∨ alpha p = 255%Z → alpha q = 255%Z)
          | None => alpha q = 255%Z
          end)
  ∧ (∃ l w' out,
      remove_background remove r None w = (inr l, w')
      ∧ heap w' !! l = Some out
      ∧ alpha_band out = Some (grid_map alpha (elems seg))).
Proof.
  intros Hr Hseg Hok. split.
  - intros c.
    destruct (remove_background_color remove w r im c seg Hr Hseg)
      as (l & w' & out & Hrun & Hout & Hcomp & _).
    exists l, w', out. split; [done|]. split; [done|].
    intros x y q. rewrite (composite_getpixel _ _ _ _ x y Hcomp).
    case_bool_decide as Hin; [|done]. intros [= <-].
    destruct (item seg y x) as [p|] eqn:Hp.
    + pose proof (at_xy_bounds _ _ _ _ _ _ Hok Hp) as Hsh.
      rewrite bool_decide_eq_true_2 by done.
      rewrite PasteFacts.paste_pixel_alpha, PasteFacts.getink_alpha.
      split; [done|]. apply PasteFacts.blend_alpha_opaque.
    + case_bool_decide; apply PasteFacts.getink_alpha.
  - destruct (remove_background_transparent remove w r im seg Hr Hseg)
      as (l & w' & Hrun & Hout & _).
    by exists l, w', (fromarray seg).
Qed.

(** C4.  The output has the width and height of the input, with or
    without a colour, when the oracle returns an array of the shape of
    its input. *)
Theorem output_size_is_input_size w r im (seg : ndarray) (c : option color) :
  heap w !! r = Some im →
  segment remove im = inr seg →
  shape seg = (height im, width im) →
  ∃ l w' out,
    remove_background remove r c w = (inr l, w')
    ∧ heap w' !! l = Some out
    ∧ width out = width im ∧ height out = height im.
Proof.
  intros Hr Hseg Hshape. destruct c as [col|].
  - destruct (remove_background_color remove w r im col seg Hr Hseg)
      as (l & w' & out & Hrun & Hout & Hcomp & _).
    exists l, w', out. split; [done|]. split; [done|].
    unfold width, height. by rewrite (composite_size _ _ _ _ Hcomp).
  - destruct (remove_background_transparent remove w r im seg Hr Hseg)
      as (l & w' & Hrun & Hout & _).
    exists l, w', (fromarray seg). split; [done|]. split; [done|].
    unfold width, height, fromarray. simpl. by rewrite Hshape.
Qed.

(** C6.  Without a colour the output is the oracle's array as an image:
    reading it back as an array gives the oracle's array. *)
Theorem transparent_output_is_oracle_output w r im (seg : ndarray) :
  heap w !! r = Some im →
  segment remove im = inr seg →
  ∃ l w' out,
    remove_background remove r None w = (inr l, w')
    ∧ heap w' !! l = Some out
    ∧ out = fromarray seg
    ∧ np_array_of out = inr seg.
Proof.
  intros Hr Hseg.
  destruct (remove_background_transparent remove w r im seg Hr Hseg)
    as (l & w' & Hrun & Hout & _).
  exists l, w', (fromarray seg).
  split; [done|]. split; [done|]. split; [done|]. apply np_array_fromarray.
Qed.

(** C7.  Whatever the call does (return or raise), the caller's image
    object, like every object that existed before the call, holds the
    same mode, size and pixels afterwards. *)
Theorem input_not_mutated w r im (c : option color) :
  heap w !! r = Some im →
  heap (remove_background remove r c w).2 !! r = Some im
  ∧ ∀ l, l < length (heap w) →
      heap (remove_background remove r c w).2 !! l = heap w !! l.
Proof.
  intros Hr.
  assert (Hframe : frame w (remove_background remove r c w).2).
  { destruct (segment remove im) as [e|seg] eqn:Hseg.
    - destruct (remove_background_fails remove w r im c e Hr Hseg)
        as (w' & -> & Hf). done.
    - destruct c as [col|].
      + destruct (remove_background_color remove w r im col seg Hr Hseg)
          as (l & w' & out & -> & _ & _ & Hf). done.
      + destruct (remove_background_transparent remove w r im seg Hr Hseg)
          as (l & w' & -> & _ & Hf). done. }
  destruct Hframe as [Hheap _]. split; [|exact Hheap].
  rewrite Hheap; [done|]. by eapply lookup_lt_Some.
Qed.

(** C9.  With a colour the output has the size of the normalized input
    whatever the shape of the oracle's array, which lands at the origin
    of the canvas; without a colour the output has the size the
    oracle's array gives it. *)
Theorem output_size_by_case w r im (seg : ndarray) :
  heap w !! r = Some im →
  segment remove im = inr seg →
  (∀ c : color, ∃ l w' out,
      remove_background remove r (Some c) w = (inr l, w')
      ∧ heap w' !! l = Some out
      ∧ size out = size (normalize im)
      ∧ ∀ x y, x < width im → y < height im →
          getpixel out x y
          = Some (if bool_decide (x < (shape seg).2 ∧ y < (shape seg).1) then
                    match item seg y x with
                    | Some q => PIL.paste_pixel (PIL.getink c) q q
                    | None => PIL.getink c
                    end
                  else PIL.getink c))
  ∧ (∃ l w' out,
      remove_background remove r None w = (inr l, w')
      ∧ heap w' !! l = Some out
      ∧ size out = ((shape seg).2, (shape seg).1)).
Proof.
  intros Hr Hseg. split.
  - intros c.
    destruct (remove_background_color remove w r im c seg Hr Hseg)
      as (l & w' & out & Hrun & Hout & Hcomp & _).
    exists l, w', out. split; [done|]. split; [done|]. split.
    + by rewrite size_normalize, (composite_size _ _ _ _ Hcomp).
    + intros x y Hx Hy. rewrite (composite_getpixel _ _ _ _ x y Hcomp).
      by rewrite bool_decide_eq_true_2 by done.
  - destruct (remove_background_transparent remove w r im seg Hr Hseg)
      as (l & w' & Hrun & Hout & _).
    by exists l, w', (fromarray seg).
Qed.

End Compositor.

(** * Normalization *)

Module ConvertFacts.





Lemma alpha_la2rgb p : alpha (PIL.la2rgb p) = p.2.
Proof. by destruct p as [l a]. Qed.

Lemma alpha_rgba2rgbA p : alpha (PIL.rgba2rgbA p) = alpha p.
Proof. unfold PIL.rgba2rgbA. by destruct (_ || _). Qed.

End ConvertFacts.

Section Normalization.
Variable remove : ndarray → exn + ndarray.
Implicit Types (w : world) (r l : loc) (im : Image) (e : exn).

(** The result of [remove_background] depends on the oracle only
    through its answer on the normalized input. *)
Lemma remove_background_ext (remove' : ndarray → exn + ndarray) w r im
    (c : option color) :
  heap w !! r = Some im →
  segment remove' im = segment remove im →
  remove_background remove' r c w = remove_background remove r c w.
Proof.
  intros Hr Heq. destruct (segment remove im) as [e|seg] eqn:Hseg.
  - by rewrite (run_oracle_fails remove' w r im c e Hr Heq),
               (run_oracle_fails remove w r im c e Hr Hseg).
  - destruct c as [col|].
    + destruct (composite (size im) col seg) as [e|P] eqn:HP;
        [by rewrite composite_eq in HP|].
      by rewrite (run_color remove' w r im col seg P Hr Heq HP),
                 (run_color remove w r im col seg P Hr Hseg HP).
    + by rewrite (run_transparent remove' w r im seg Hr Heq),
                 (run_transparent remove w r im seg Hr Hseg).
Qed.

Lemma oracle_input w r im (c : option color) (a : ndarray) :
  heap w !! r = Some im →
  np_array_of (normalize im) = inr a →
  ∀ remove' : ndarray → exn + ndarray,
    remove' a = remove a →
    remove_background remove' r c w = remove_background remove r c w.
Proof.
  intros Hr Ha remove' Heq. apply remove_background_ext with im; [done|].
  unfold segment. by rewrite Ha.
Qed.

Lemma handed_to_oracle_normalized w r im (a : ndarray) :
  heap w !! r = Some im →
  np_array_of (normalize im) = inr a →
  handed_to_oracle remove r w a.
Proof.
  intros Hr Ha. split.
  - intros c e He.
    assert (Hseg : segment remove im = inl e) by (unfold segment; by rewrite Ha).
    by rewrite (run_oracle_fails remove w r im c e Hr Hseg).
  - intros seg Hs.
    assert (Hseg : segment remove im = inr seg) by (unfold segment; by rewrite Ha).
    destruct (remove_background_transparent remove w r im seg Hr Hseg)
      as (l & w' & Hrun & Hout & _).
    by exists l, w'.
Qed.

(** A conversion leaves the converted copy in the store, at the first
    free address, however the call ends. *)
Lemma converted_copy_in_store w r im (c : option color) :
  heap w !! r = Some im →
  mode im ≠ Mode_RGBA →
  heap (remove_background remove r c w).2 !! length (heap w)
  = Some (PIL.convert_RGBA im).
Proof.
  intros Hr Hm.
  assert (Hn : heap_normalized (heap w) im = heap w ++ [PIL.convert_RGBA im])
    by (unfold heap_normalized; by rewrite bool_decide_eq_true_2).
  destruct (segment remove im) as [e|seg] eqn:Hseg.
  - rewrite (run_oracle_fails remove w r im c e Hr Hseg). simpl.
    rewrite Hn. by apply list_lookup_middle.
  - destruct c as [col|].
    + destruct (composite (size im) col seg) as [e|P] eqn:HP;
        [by rewrite composite_eq in HP|].
      rewrite (run_color remove w r im col seg P Hr Hseg HP). simpl.
      rewrite Hn, <- (assoc_L (++)). by apply list_lookup_middle.
    + rewrite (run_transparent remove w r im seg Hr Hseg). simpl.
      rewrite Hn, <- (assoc_L (++)). by apply list_lookup_middle.
Qed.


(** C10.  The input is converted exactly when its mode is not RGBA: a
    conversion puts the converted copy into the store, an RGBA input
    goes to the oracle as it is.  For a mode with an alpha band (LA,
    RGBa, RGBA) the alpha band of the array handed to the oracle is the
    alpha band of the input. *)
Theorem alpha_survives_normalization w r im :
  heap w !! r = Some im →
  ∃ a : ndarray,
    np_array_of (normalize im) = inr a
    ∧ handed_to_oracle remove r w a
    ∧ (mode im ≠ Mode_RGBA →
         np_array_of (PIL.convert_RGBA im) = inr a
         ∧ ∀ c : option color,
             heap (remove_background remove r c w).2 !! length (heap w)
             = Some (PIL.convert_RGBA im))
    ∧ (mode im = Mode_RGBA → np_array_of im = inr a)
    ∧ (has_alpha (mode im) = true →
         alpha_band im = Some (grid_map alpha (elems a))).
Proof.
  intros Hr.
  destruct (np_array_normalize im) as (a & Ha & Hshape).
  exists a. split; [done|].
  split; [by apply handed_to_oracle_normalized with im|].
  split; [|split].
  - intros Hm. split; [|intros c; by apply converted_copy_in_store].
    unfold normalize in Ha. by rewrite bool_decide_eq_true_2 in Ha.
  - intros Hm. unfold normalize in Ha.
    by rewrite bool_decide_eq_false_2 in Ha by (by intros ?).
  - unfold normalize in Ha.
    destruct im as [sz d]. unfold alpha_band. cbn [data].
    destruct d; simpl in Ha; injection Ha as <-; cbn [elems mode data has_alpha];
      try done; intros _; f_equal.
    + rewrite grid_map_compose. apply grid_map_ext. intros p. simpl.
      by rewrite ConvertFacts.alpha_la2rgb.
    + rewrite grid_map_compose. symmetry. apply grid_map_ext. intros p. simpl.
      apply ConvertFacts.alpha_rgba2rgbA.
Qed.

End Normalization.

(** * The Streamlit script *)

Lemma try_ok {A} (body : M A) (handler : exn → M A) (w w' : world) (a : A) :
  body w = (inr a, w') → try_except body handler w = (inr a, w').
Proof. unfold try_except. by intros ->. Qed.

Lemma try_caught {A} (body : M A) (handler : exn → M A) (w w' : world) (e : exn) :
  body w = (inl e, w') → try_except body handler w = handler e w'.
Proof. unfold try_except. by intros ->. Qed.

Lemma processed_ok (im : Image) (bg : option color) (seg : ndarray) :
  ∃ out, processed im bg seg = inr out.
Proof.
  destruct bg as [c|]; simpl; [|by eexists].
  rewrite composite_eq. by eexists.
Qed.

Section Script.
Variable remove : ndarray → exn + ndarray.
Variable Image_open : bytes → exn + Image.
Variable getrgb : string → exn + color.
Variable save_PNG : Image → exn + bytes.
Implicit Types (w : world) (r l : loc) (im : Image) (e : exn) (ui : session).

Ltac emit := erewrite bind_ok by (unfold st_emit; reflexivity); cbn [heap page].

(** The image returned by [remove_background], with the page as it was. *)
Lemma remove_background_result w r im (bg : option color) (seg : ndarray)
    (out : Image) :
  heap w !! r = Some im →
  segment remove im = inr seg →
  processed im bg seg = inr out →
  ∃ l h', remove_background remove r bg w = (inr l, World h' (page w))
        ∧ h' !! l = Some out.
Proof.
  intros Hr Hseg Hout. destruct bg as [c|]; simpl in Hout.
  - destruct (remove_background_color remove w r im c seg Hr Hseg)
      as (l & [h' p'] & out' & Hrun & Hl & Hcomp & _ & Hpage).
    simpl in *. subst p'. rewrite Hout in Hcomp. injection Hcomp as <-.
    by exists l, h'.
  - destruct (remove_background_transparent remove w r im seg Hr Hseg)
      as (l & [h' p'] & Hrun & Hl & _ & Hpage).
    simpl in *. subst p'. injection Hout as <-. by exists l, h'.
Qed.

Lemma remove_background_raises w r im (bg : option color) e :
  heap w !! r = Some im →
  segment remove im = inl e →
  ∃ h', remove_background remove r bg w = (inl e, World h' (page w)).
Proof.
  intros Hr Hseg.
  destruct (remove_background_fails remove w r im bg e Hr Hseg)
    as ([h' p'] & Hrun & _ & Hpage).
  simpl in *. subst p'. by exists h'.
Qed.

(** The [try] block never lets an exception out, and shows what
    [process_elements] lists. *)
Lemma process_run w r im (bg : option color) :
  heap w !! r = Some im →
  ∃ h', process remove save_PNG r bg w
        = (inr tt, World h' (page w ++ process_elements remove save_PNG im bg)).
Proof.
  intros Hr. unfold process, process_elements.
  destruct (segment remove im) as [e|seg] eqn:Hseg.
  - destruct (remove_background_raises w r im bg e Hr Hseg) as (h' & Hrun).
    exists h'. erewrite try_caught by (erewrite bind_raise; [done|exact Hrun]).
    done.
  - destruct (processed_ok im bg seg) as (out & Hout). rewrite Hout.
    destruct (remove_background_result w r im bg seg out Hr Hseg Hout)
      as (l & h' & Hrun & Hl).
    exists h'.
    destruct (save_PNG out) as [e|png] eqn:Hpng.
    + erewrite try_caught.
      2: { erewrite bind_ok by exact Hrun.
           erewrite bind_ok by (by apply deref_ok).
           emit. emit.
           erewrite bind_raise; [done|]. by rewrite Hpng. }
      unfold st_emit, error_box. simpl. by rewrite <- !(assoc_L (++)).
    + erewrite try_ok; [done|].
      erewrite bind_ok by exact Hrun.
      erewrite bind_ok by (by apply deref_ok).
      emit. emit.
      erewrite bind_ok by (by rewrite Hpng).
      unfold st_emit, download_button. simpl. by rewrite <- !(assoc_L (++)).
Qed.

Lemma pick_background_color_run w ui (bg : option color) :
  selected getrgb ui bg →
  pick_background_color getrgb ui w
  = (inr bg, World (heap w) (page w ++ picker_elements bg)).
Proof.
  unfold selected, pick_background_color. destruct bg as [c|].
  - intros [-> Hc]. simpl. emit. erewrite bind_ok by (by rewrite Hc). done.
  - intros Hne. rewrite (proj2 (String.eqb_neq _ _) Hne).
    destruct w. simpl. by rewrite app_nil_r.
Qed.

Lemma handle_upload_run w (f : bytes) im (bg : option color) :
  Image_open f = inr im →
  ∃ h', handle_upload remove Image_open save_PNG f bg w
        = (inr tt,
           World h' (page w ++ original_elements im
                     ++ process_elements remove save_PNG im bg)).
Proof.
  intros Him. unfold handle_upload. rewrite Him. simpl.
  erewrite bind_ok by reflexivity.
  erewrite bind_ok by reflexivity. cbn [heap page].
  erewrite bind_ok by (apply deref_ok; simpl; by apply list_lookup_middle).
  emit. emit.
  match goal with
  | |- context [process _ _ ?r _ ?W] =>
      destruct (process_run W r im bg) as (h' & Hrun);
        [simpl; by apply list_lookup_middle|]
  end.
  exists h'. rewrite Hrun. simpl. unfold original_elements.
  by rewrite <- !(assoc_L (++)).
Qed.

(** A run of [main] on an upload that decodes. *)
Lemma main_run w ui (f : bytes) im (bg : option color) :
  uploaded_file ui = Some f →
  Image_open f = inr im →
  selected getrgb ui bg →
  ∃ h', main remove Image_open getrgb save_PNG ui w
        = (inr tt,
           World h' (page w ++ header_elements ++ picker_elements bg
                     ++ original_elements im
                     ++ process_elements remove save_PNG im bg
                     ++ [(Sidebar, El_info how_to_use)])).
Proof.
  intros Hf Him Hbg. unfold main.
  do 6 emit.
  erewrite bind_ok by (by apply pick_background_color_run).
  cbn [heap page]. rewrite Hf. cbv beta iota.
  match goal with
  | |- ∃ _, bind _ _ ?W = _ =>
      destruct (handle_upload_run W f im bg Him) as (h' & Hrun)
  end.
  exists h'. erewrite bind_ok by exact Hrun.
  unfold st_emit, header_elements. simpl.
  by rewrite <- !(assoc_L (++)).
Qed.

(** A run of [main] on an upload that does not decode: the exception
    of [Image.open] leaves [main]. *)
Lemma main_decode_error w ui (f : bytes) e (bg : option color) :
  uploaded_file ui = Some f →
  Image_open f = inl e →
  selected getrgb ui bg →
  main remove Image_open getrgb save_PNG ui w
  = (inl e, World (heap w) (page w ++ header_elements ++ picker_elements bg)).
Proof.
  intros Hf Him Hbg. unfold main.
  do 6 emit.
  erewrite bind_ok by (by apply pick_background_color_run).
  cbn [heap page]. rewrite Hf.
  erewrite bind_raise.
  2: { unfold handle_upload. erewrite bind_raise; [done|]. by rewrite Him. }
  unfold header_elements. simpl. by rewrite <- !(assoc_L (++)).
Qed.

End Script.

(** C8.  After a successful processing the page offers one download:
    the PNG bytes of the processed image, named processed_image.png, of
    type image/png. *)
Theorem download_is_png_of_processed_image
    (remove : ndarray → exn + ndarray) (Image_open : bytes → exn + Image)
    (getrgb : string → exn + color) (save_PNG : Image → exn + bytes)
    (w : world) (ui : session) (f : bytes) (im : Image) (bg : option color)
    (seg : ndarray) (out : Image) (png : bytes) :
  uploaded_file ui = Some f →
  Image_open f = inr im →
  selected getrgb ui bg →
  segment remove im = inr seg →
  processed im bg seg = inr out →
  save_PNG out = inr png →
  (∀ w0 r, heap w0 !! r = Some im →
     ∃ l h', remove_background remove r bg w0 = (inr l, World h' (page w0))
           ∧ h' !! l = Some out)
  ∧ ∃ w', main remove Image_open getrgb save_PNG ui w = (inr tt, w')
    ∧ (Page, El_download_button "Download Image" png
               "processed_image.png" "image/png" "Download the processed image")
      ∈ page w'
    ∧ ∀ c label d file_name mime help,
        (c, El_download_button label d file_name mime help) ∈ page w' →
        (c, El_download_button label d file_name mime help) ∈ page w
        ∨ (d = png ∧ file_name = "processed_image.png" ∧ mime = "image/png").
Proof.
  intros Hf Him Hbg Hseg Hout Hpng. split.
  { intros w0 r Hr. by apply remove_background_result with im seg. }
  destruct (main_run remove Image_open getrgb save_PNG w ui f im bg Hf Him Hbg)
    as (h' & Hrun).
  eexists. split; [exact Hrun|]. cbn [page].
  unfold process_elements. rewrite Hseg, Hout, Hpng.
  split.
  - unfold download_button. (rewrite ?elem_of_app, ?elem_of_cons; naive_solver).
  - intros c label d file_name mime help Hin.
    unfold header_elements, picker_elements, original_elements, download_button in Hin.
    rewrite !elem_of_app in Hin.
    destruct Hin as [Hin|[Hin|[Hin|[Hin|[Hin|Hin]]]]]; [by left|..].
    all: try destruct bg.
    all: rewrite ?elem_of_cons, ?elem_of_nil in Hin.
    all: repeat (destruct Hin as [Hin|Hin]); try done.
    all: injection Hin as -> -> -> -> -> ->; by right.
Qed.

(** * The theorems on sample data *)

Module Samples.
Import Example.
Local Open Scope Z_scope.

Lemma segment_cutout : segment cutout photo = inr cut.
Proof. reflexivity. Defined.

Lemma cut_ok : ndarray_ok cut.
Proof. split; [reflexivity|]. repeat constructor. Defined.


Lemma lime_ok : color_ok lime.
Proof. unfold color_ok, lime, Imaging.is_uint8. lia. Defined.

(** The backdrop pixel of the photo comes out lime and opaque. *)
Lemma transparent_pixel_gets_color_sample :
  ∃ l w' out,
    remove_background cutout 0%nat (Some lime) w0 = (inr l, w')
    ∧ heap w' !! l = Some out
    ∧ getpixel out 1%nat 0%nat = Some (Pixel 0 255 0 255).
Proof.
  apply (transparent_pixel_gets_color cutout w0 0%nat photo 0 255 0 cut
           1%nat 0%nat (Pixel 0 0 0 0)).
  - reflexivity.
  - exact segment_cutout.
  - exact cut_ok.
  - reflexivity.
  - exact lime_ok.
  - reflexivity.
  - reflexivity.
Defined.

(** C3 fails on a soft edge: a segmented alpha of 128 under a requested
    colour leaves the output pixel with alpha 191. *)
Lemma soft_edge_output_not_opaque :
  ∃ l w' out q,
    remove_background soft_edge 0%nat (Some lime) w0 = (inr l, w')
    ∧ heap w' !! l = Some out
    ∧ getpixel out 0%nat 0%nat = Some q
    ∧ alpha q = 191
    ∧ alpha q ≠ 255.
Proof.
  eexists _, _, _, _.
  split; [vm_compute; reflexivity|].
  split; [vm_compute; reflexivity|].
  split; [vm_compute; reflexivity|].
  split; [reflexivity|]. simpl. discriminate.
Qed.

Lemma output_opacity_sample :
  (∀ c : color, ∃ l w' out,
      remove_background cutout 0%nat (Some c) w0 = (inr l, w')
      ∧ heap w' !! l = Some out
      ∧ ∀ x y q, getpixel out x y = Some q →
          match item cut y x with
          | Some p =>
              alpha q = Imaging.to_uint8 (Imaging.BLEND (alpha p) 255 (alpha p))
              ∧ (alpha p = 0 ∨ alpha p = 255 → alpha q = 255)
          | None => alpha q = 255
          end)
  ∧ (∃ l w' out,
      remove_background cutout 0%nat None w0 = (inr l, w')
      ∧ heap w' !! l = Some out
      ∧ alpha_band out = Some (grid_map alpha (elems cut))).
Proof.
  apply (output_opacity cutout w0 0%nat photo cut).
  - reflexivity.
  - exact segment_cutout.
  - exact cut_ok.
Defined.

Lemma output_size_is_input_size_sample :
  ∃ l w' out,
    remove_background cutout 0%nat (Some lime) w0 = (inr l, w')
    ∧ heap w' !! l = Some out
    ∧ width out = 2%nat ∧ height out = 1%nat.
Proof.
  apply (output_size_is_input_size cutout w0 0%nat photo cut (Some lime)).
  - reflexivity.
  - exact segment_cutout.
  - reflexivity.
Defined.

Lemma transparent_output_is_oracle_output_sample :
  ∃ l w' out,
    remove_background cutout 0%nat None w0 = (inr l, w')
    ∧ heap w' !! l = Some out
    ∧ out = fromarray cut
    ∧ np_array_of out = inr cut.
Proof.
  apply (transparent_output_is_oracle_output cutout w0 0%nat photo cut).
  - reflexivity.
  - exact segment_cutout.
Defined.

Lemma input_not_mutated_sample :
  heap (remove_background cutout 0%nat (Some lime) w0).2 !! 0%nat = Some photo
  ∧ ∀ l, (l < 1)%nat →
      heap (remove_background cutout 0%nat (Some lime) w0).2 !! l = heap w0 !! l.
Proof.
  apply (input_not_mutated cutout w0 0%nat photo (Some lime)).
  reflexivity.
Defined.

(** An oracle that answers 1 x 1: the coloured output keeps the 2 x 1
    size of the input, the transparent output is 1 x 1. *)
Lemma output_size_by_case_sample :
  (∀ c : color, ∃ l w' out,
      remove_background thumbnail 0%nat (Some c) w0 = (inr l, w')
      ∧ heap w' !! l = Some out
      ∧ size out = (2%nat, 1%nat)
      ∧ ∀ x y, (x < 2)%nat → (y < 1)%nat →
          getpixel out x y
          = Some (if bool_decide ((x < 1)%nat ∧ (y < 1)%nat) then
                    match item (mkArray (1%nat, 1%nat) [[Pixel 9 9 9 255]]) y x with
                    | Some q => PIL.paste_pixel (PIL.getink c) q q
                    | None => PIL.getink c
                    end
                  else PIL.getink c))
  ∧ (∃ l w' out,
      remove_background thumbnail 0%nat None w0 = (inr l, w')
      ∧ heap w' !! l = Some out
      ∧ size out = (1%nat, 1%nat)).
Proof.
  apply (output_size_by_case thumbnail w0 0%nat photo
           (mkArray (1%nat, 1%nat) [[Pixel 9 9 9 255]])).
  - reflexivity.
  - reflexivity.
Defined.



(** A grey image with alpha 0 and 77 reaches the oracle with alpha 0
    and 77. *)
Lemma alpha_survives_normalization_sample :
  ∃ a : ndarray,
    np_array_of (normalize veiled) = inr a
    ∧ handed_to_oracle cutout 0%nat (World [veiled] []) a
    ∧ (mode veiled ≠ Mode_RGBA →
         np_array_of (PIL.convert_RGBA veiled) = inr a
         ∧ ∀ c : option color,
             heap (remove_background cutout 0%nat c (World [veiled] [])).2
             !! 1%nat = Some (PIL.convert_RGBA veiled))
    ∧ (mode veiled = Mode_RGBA → np_array_of veiled = inr a)
    ∧ (has_alpha (mode veiled) = true →
         Some [[0; 77]] = Some (grid_map alpha (elems a))).
Proof.
  apply (alpha_survives_normalization cutout (World [veiled] []) 0%nat veiled).
  reflexivity.
Defined.


Lemma download_is_png_of_processed_image_sample :
  (∀ w0 r, heap w0 !! r = Some photo →
     ∃ l h', remove_background cutout r None w0 = (inr l, World h' (page w0))
           ∧ h' !! l = Some (fromarray cut))
  ∧ ∃ w', main cutout open_photo getrgb save_stub transparent_session blank
          = (inr tt, w')
    ∧ (Page, El_download_button "Download Image"
               [Byte.x89; Byte.x50; Byte.x4e; Byte.x47]
               "processed_image.png" "image/png" "Download the processed image")
      ∈ page w'
    ∧ ∀ c label d file_name mime help,
        (c, El_download_button label d file_name mime help) ∈ page w' →
        (c, El_download_button label d file_name mime help) ∈ page blank
        ∨ (d = [Byte.x89; Byte.x50; Byte.x4e; Byte.x47]
           ∧ file_name = "processed_image.png" ∧ mime = "image/png").
Proof.
  apply (download_is_png_of_processed_image cutout open_photo getrgb save_stub
           blank transparent_session upload photo None cut (fromarray cut)
           [Byte.x89; Byte.x50; Byte.x4e; Byte.x47]).
  - reflexivity.
  - reflexivity.
  - simpl. discriminate.
  - exact segment_cutout.
  - reflexivity.
  - reflexivity.
Defined.

End Samples.

(** * Further properties of the compositor *)

Module BlendFacts.
Import Imaging ImagingFacts.
Local Open Scope Z_scope.

(** A mask of 255 takes the source byte. *)
Lemma BLEND_mask_255 v w : is_uint8 w → BLEND 255 v w = w.
Proof.
  intros Hw. unfold BLEND.
  replace (v * (255 - 255) + w * 255) with (w * 255) by lia.
  by apply DIV255_exact.
Qed.

(** Under a mask of 255 the source pixel replaces the destination
    pixel, whatever the destination was. *)
Lemma paste_pixel_opaque (o q : rgba) :
  rgba_ok q → alpha q = 255 → PIL.paste_pixel o q q = q.
Proof.
  intros (Hr & Hg & Hb & Ha) Hq. unfold PIL.paste_pixel. rewrite Hq.
  change (255 =? 0) with false. cbv iota.
  assert (Hm : to_uint8 (255 - (255 - 255) * (1 - (255 - alpha o) ÷ 255)) = 255).
  { replace (255 - (255 - 255) * (1 - (255 - alpha o) ÷ 255)) with 255 by lia.
    reflexivity. }
  rewrite Hm, !BLEND_mask_255, !to_uint8_id by (done || (unfold is_uint8; lia)).
  destruct q. simpl in *. by subst.
Qed.

End BlendFacts.

Section CompositorMore.
Variable remove : ndarray → exn + ndarray.
Implicit Types (w : world) (r l : loc) (im : Image) (e : exn).

Lemma remove_background_frame w r im (c : option color) :
  heap w !! r = Some im → frame w (remove_background remove r c w).2.
Proof.
  intros Hr. destruct (segment remove im) as [e|seg] eqn:Hseg.
  - by destruct (remove_background_fails remove w r im c e Hr Hseg)
      as (w' & -> & Hf).
  - destruct c as [col|].
    + by destruct (remove_background_color remove w r im col seg Hr Hseg)
        as (l & w' & out & -> & _ & _ & Hf).
    + by destruct (remove_background_transparent remove w r im seg Hr Hseg)
        as (l & w' & -> & _ & Hf).
Qed.

(** [remove_background] has no handler of its own: an exception of the
    oracle leaves it as it is.  The page is untouched, and the store
    holds one more object, the converted copy, unless the input was
    RGBA already. *)
Theorem oracle_failure_propagates w r im (c : option color) e :
  heap w !! r = Some im →
  segment remove im = inl e →
  remove_background remove r c w
  = (inl e,
     World (if bool_decide (mode im ≠ Mode_RGBA)
            then heap w ++ [PIL.convert_RGBA im] else heap w)
           (page w)).
Proof. intros Hr Hseg. by rewrite (run_oracle_fails remove w r im c e Hr Hseg). Qed.

(** With a requested colour, a pixel the segmentation marks as fully
    foreground (alpha 255) comes out exactly as the segmentation gave
    it. *)
Theorem foreground_pixel_kept w r im (c : color) (seg : ndarray)
    (x y : nat) (p : rgba) :
  heap w !! r = Some im →
  segment remove im = inr seg →
  ndarray_ok seg →
  shape seg = (height im, width im) →
  item seg y x = Some p →
  rgba_ok p →
  alpha p = 255%Z →
  ∃ l w' out,
    remove_background remove r (Some c) w = (inr l, w')
    ∧ heap w' !! l = Some out
    ∧ getpixel out x y = Some p.
Proof.
  intros Hr Hseg Hok Hshape Hp Hbytes Halpha.
  destruct (remove_background_color remove w r im c seg Hr Hseg)
    as (l & w' & out & Hrun & Hout & Hcomp & _).
  exists l, w', out. split; [done|]. split; [done|].
  rewrite (composite_getpixel _ _ _ _ x y Hcomp), Hp.
  pose proof (at_xy_bounds _ _ _ _ _ _ Hok Hp) as Hin.
  rewrite Hshape in Hin |- *. unfold width, height in Hin |- *.
  cbn [fst snd] in Hin |- *.
  rewrite !bool_decide_eq_true_2 by done.
  by rewrite BlendFacts.paste_pixel_opaque.
Qed.

(** With a requested colour the output is an RGBA image that has a
    pixel at exactly the locations of the input, whatever shape the
    oracle's array has. *)
Theorem colored_output_covers_input w r im (c : color) (seg : ndarray) :
  heap w !! r = Some im →
  segment remove im = inr seg →
  ∃ l w' out,
    remove_background remove r (Some c) w = (inr l, w')
    ∧ heap w' !! l = Some out
    ∧ mode out = Mode_RGBA
    ∧ ∀ x y, is_Some (getpixel out x y) ↔ x < width im ∧ y < height im.
Proof.
  intros Hr Hseg.
  destruct (remove_background_color remove w r im c seg Hr Hseg)
    as (l & w' & out & Hrun & Hout & Hcomp & _).
  exists l, w', out. split; [done|]. split; [done|].
  split; [by eapply composite_mode|].
  intros x y. rewrite (composite_getpixel _ _ _ _ x y Hcomp).
  unfold width, height. case_bool_decide as Hin.
  - split; [done|]. intros _. by eexists.
  - split; [by intros [? ?]|done].
Qed.

(** The image returned is always a new object: its address did not
    exist before the call, so it is never the caller's image, not even
    for an RGBA input and no colour. *)
Theorem output_is_a_new_object w r im (c : option color) l w' :
  heap w !! r = Some im →
  remove_background remove r c w = (inr l, w') →
  length (heap w) ≤ l ∧ l ≠ r ∧ heap w !! l = None ∧ is_Some (heap w' !! l).
Proof.
  intros Hr Hrun.
  pose proof (lookup_lt_Some _ _ _ Hr) as Hlt.
  pose proof (heap_normalized_length (heap w) im) as Hlen.
  assert (Hl : length (heap w) ≤ l ∧ is_Some (heap w' !! l)).
  { destruct (segment remove im) as [e|seg] eqn:Hseg.
    - by rewrite (run_oracle_fails remove w r im c e Hr Hseg) in Hrun.
    - destruct c as [col|].
      + destruct (composite (size im) col seg) as [e|P] eqn:HP;
          [by rewrite composite_eq in HP|].
        rewrite (run_color remove w r im col seg P Hr Hseg HP) in Hrun.
        injection Hrun as <- <-. split; [lia|]. simpl.
        rewrite lookup_app_plus. by eexists.
      + rewrite (run_transparent remove w r im seg Hr Hseg) in Hrun.
        injection Hrun as <- <-. split; [lia|]. simpl.
        rewrite list_lookup_middle by done. by eexists. }
  destruct Hl as [Hl Hsome]. split; [done|]. split; [lia|].
  split; [|done]. apply lookup_ge_None. lia.
Qed.

(** The coloured output is the transparent output pasted, under its own
    alpha, at the origin of a canvas of the requested colour and of the
    input's size. *)
Theorem colored_output_is_transparent_output_on_canvas w r im (c : color)
    (seg : ndarray) :
  heap w !! r = Some im →
  segment remove im = inr seg →
  ∃ l1 w1 cutout l2 w2 out,
    remove_background remove r None w = (inr l1, w1)
    ∧ heap w1 !! l1 = Some cutout
    ∧ remove_background remove r (Some c) w = (inr l2, w2)
    ∧ heap w2 !! l2 = Some out
    ∧ Paste.paste (PIL.new_RGBA (size im) c) cutout (0, 0) cutout = inr out.
Proof.
  intros Hr Hseg.
  destruct (remove_background_transparent remove w r im seg Hr Hseg)
    as (l1 & w1 & Hrun1 & Hout1 & _).
  destruct (remove_background_color remove w r im c seg Hr Hseg)
    as (l2 & w2 & out & Hrun2 & Hout2 & Hcomp & _).
  by exists l1, w1, (fromarray seg), l2, w2, out.
Qed.

(** The array handed to the oracle keeps the colours of an RGB input
    without a 'transparency' key: the pixel (r, g, b) arrives as
    (r, g, b, 255). *)
Theorem rgb_input_reaches_oracle_unchanged w r im
    (d : list (list (Z * Z * Z))) (x y : nat) (cr cg cb : Z) :
  heap w !! r = Some im →
  data im = Data_RGB d →
  at_xy d x y = Some (cr, cg, cb) →
  ∃ a : ndarray,
    np_array_of (normalize im) = inr a
    ∧ handed_to_oracle remove r w a
    ∧ item a y x = Some (Pixel cr cg cb 255).
Proof.
  intros Hr Hd Hp.
  destruct (np_array_normalize im) as (a & Ha & _).
  exists a. split; [done|].
  split; [by apply (handed_to_oracle_normalized remove) with im|].
  unfold normalize in Ha. destruct im as [sz d']. simpl in Hd. subst d'.
  simpl in Ha. injection Ha as <-. unfold item. simpl.
  by rewrite at_xy_grid_map, Hp.
Qed.

(** With a 'transparency' key on an RGB input, the pixels of the key
    colour reach the oracle with alpha 0 and all others with alpha
    255, colours unchanged. *)
Theorem transparency_key_reaches_oracle_as_alpha w r im
    (d : list (list (Z * Z * Z))) (t : Z * Z * Z) (x y : nat) (p : Z * Z * Z) :
  heap w !! r = Some im →
  data im = Data_RGB_trns d t →
  color_ok t →
  at_xy d x y = Some p →
  ∃ a : ndarray,
    np_array_of (normalize im) = inr a
    ∧ handed_to_oracle remove r w a
    ∧ item a y x
      = Some (Pixel p.1.1 p.1.2 p.2 (if bool_decide (p = t) then 0 else 255)).
Proof.
  intros Hr Hd Ht Hp.
  destruct (np_array_normalize im) as (a & Ha & _).
  exists a. split; [done|].
  split; [by apply (handed_to_oracle_normalized remove) with im|].
  unfold normalize in Ha. destruct im as [sz d']. simpl in Hd. subst d'.
  simpl in Ha. injection Ha as <-. unfold item. simpl.
  rewrite at_xy_grid_map, Hp. simpl. f_equal.
  destruct p as [[pr pg] pb], t as [[tr tg] tb].
  destruct Ht as (Hr' & Hg' & Hb').
  unfold PIL.rgbT2rgba, PIL.rgb2rgba. simpl.
  fold (Imaging.to_uint8 tr) (Imaging.to_uint8 tg) (Imaging.to_uint8 tb).
  rewrite !ImagingFacts.to_uint8_id by done.
  case_bool_decide as Heq.
  - injection Heq as -> -> ->. by rewrite !Z.eqb_refl.
  - destruct (Z.eqb_spec pr tr), (Z.eqb_spec pg tg), (Z.eqb_spec pb tb);
      simpl; try done.
    by subst.
Qed.

(** An RGBA input is not copied: the oracle is handed the pixels of
    the caller's image, and a successful call without colour adds one
    object, the output, to the store. *)
Theorem rgba_input_is_used_as_is w r im (seg : ndarray) :
  heap w !! r = Some im →
  mode im = Mode_RGBA →
  segment remove im = inr seg →
  np_array_of im = inr (mkArray (height im, width im)
                          match data im with Data_RGBA d => d | _ => [] end)
  ∧ segment remove im
    = remove (mkArray (height im, width im)
                match data im with Data_RGBA d => d | _ => [] end)
  ∧ remove_background remove r None w
    = (inr (length (heap w)), World (heap w ++ [fromarray seg]) (page w)).
Proof.
  intros Hr Hm Hseg.
  rewrite (run_transparent remove w r im seg Hr Hseg).
  unfold segment, heap_normalized, normalize.
  rewrite bool_decide_eq_false_2 by (by intros ?).
  destruct im as [sz d]. by destruct d.
Qed.

End CompositorMore.

(** * Further properties of the script *)

Section ScriptMore.
Variable remove : ndarray → exn + ndarray.
Variable Image_open : bytes → exn + Image.
Variable getrgb : string → exn + color.
Variable save_PNG : Image → exn + bytes.
Implicit Types (w : world) (r l : loc) (im : Image) (e : exn) (ui : session).

Ltac emit := erewrite bind_ok by (unfold st_emit; reflexivity); cbn [heap page].

(** After [remove_background] the [try] block only writes to the page. *)
Lemma process_heap w r (bg : option color) :
  heap (process remove save_PNG r bg w).2
  = heap (remove_background remove r bg w).2.
Proof.
  unfold process, try_except, bind.
  destruct (remove_background remove r bg w) as [[e|l] w1]; [done|].
  unfold deref. destruct (heap w1 !! l) as [out|]; [|done]. simpl.
  unfold lift. by destruct (save_PNG out).
Qed.

Lemma main_no_upload w ui (bg : option color) :
  uploaded_file ui = None →
  selected getrgb ui bg →
  main remove Image_open getrgb save_PNG ui w
  = (inr tt,
     World (heap w)
           (page w ++ header_elements ++ picker_elements bg
            ++ [(Sidebar, El_info how_to_use)])).
Proof.
  intros Hf Hbg. unfold main.
  do 6 emit.
  erewrite bind_ok by (by apply pick_background_color_run).
  cbn [heap page]. rewrite Hf. cbv beta iota.
  erewrite bind_ok by reflexivity.
  unfold st_emit, header_elements. simpl. by rewrite <- !(assoc_L (++)).
Qed.

Lemma main_color_error w ui e :
  background_option ui = "Custom Color" →
  getrgb (color_input ui) = inl e →
  main remove Image_open getrgb save_PNG ui w
  = (inl e,
     World (heap w)
           (page w ++ header_elements
            ++ [(Page, El_color_picker "Choose background color" "#FFFFFF")])).
Proof.
  intros Hopt Hc. unfold main.
  do 6 emit.
  erewrite bind_raise.
  2: { unfold pick_background_color. rewrite Hopt. simpl. emit.
       erewrite bind_raise; [done|]. by rewrite Hc. }
  unfold header_elements. simpl. by rewrite <- !(assoc_L (++)).
Qed.

(** Without an upload nothing is decoded, segmented or encoded: the
    script shows its widgets and the help text and leaves the store as
    it was. *)
Theorem no_upload_shows_widgets_only w ui (bg : option color) :
  uploaded_file ui = None →
  selected getrgb ui bg →
  main remove Image_open getrgb save_PNG ui w
  = (inr tt,
     World (heap w)
           (page w ++ header_elements ++ picker_elements bg
            ++ [(Sidebar, El_info how_to_use)])).
Proof. apply main_no_upload. Qed.

(** The colour string is parsed before the upload is looked at and
    outside the [try] block: under "Custom Color" an exception of
    [ImageColor.getrgb] leaves [main], with or without an upload, after
    the colour picker has been shown. *)
Theorem color_parse_failure_escapes w ui e :
  background_option ui = "Custom Color" →
  getrgb (color_input ui) = inl e →
  main remove Image_open getrgb save_PNG ui w
  = (inl e,
     World (heap w)
           (page w ++ header_elements
            ++ [(Page, El_color_picker "Choose background color" "#FFFFFF")])).
Proof. apply main_color_error. Qed.

(** Unless the option is "Custom Color" the colour string is never
    parsed: the run is the same for every colour string and every
    parser. *)
Theorem transparent_option_ignores_color w ui
    (getrgb' : string → exn + color) (color_input' : string) :
  background_option ui ≠ "Custom Color" →
  main remove Image_open getrgb' save_PNG
    (Session (uploaded_file ui) (background_option ui) color_input') w
  = main remove Image_open getrgb save_PNG ui w.
Proof.
  intros Hne. unfold main, pick_background_color. simpl.
  by rewrite (proj2 (String.eqb_neq _ _) Hne).
Qed.

(** When the segmentation fails the page shows the original image and
    the error message, and neither a processed image nor a download. *)
Theorem segmentation_failure_page w ui (f : bytes) im (bg : option color) e :
  uploaded_file ui = Some f →
  Image_open f = inr im →
  selected getrgb ui bg →
  segment remove im = inl e →
  ∃ h', main remove Image_open getrgb save_PNG ui w
        = (inr tt,
           World h' (page w ++ header_elements ++ picker_elements bg
                     ++ [ (Column 0, El_subheader "Original Image");
                          (Column 0, El_image im true);
                          (Page, El_error ("An error occurred: " ++ str e));
                          (Sidebar, El_info how_to_use) ])).
Proof.
  intros Hf Him Hbg Hseg.
  destruct (main_run remove Image_open getrgb save_PNG w ui f im bg Hf Him Hbg)
    as (h' & Hrun).
  exists h'. rewrite Hrun. unfold process_elements. by rewrite Hseg.
Qed.

(** When the PNG encoding fails the processed image is on the page
    already; the error message follows it and no download is offered. *)
Theorem encoding_failure_page w ui (f : bytes) im (bg : option color)
    (seg : ndarray) (out : Image) e :
  uploaded_file ui = Some f →
  Image_open f = inr im →
  selected getrgb ui bg →
  segment remove im = inr seg →
  processed im bg seg = inr out →
  save_PNG out = inl e →
  ∃ h', main remove Image_open getrgb save_PNG ui w
        = (inr tt,
           World h' (page w ++ header_elements ++ picker_elements bg
                     ++ [ (Column 0, El_subheader "Original Image");
                          (Column 0, El_image im true);
                          (Column 1, El_subheader "Processed Image");
                          (Column 1, El_image out true);
                          (Page, El_error ("An error occurred: " ++ str e));
                          (Sidebar, El_info how_to_use) ])).
Proof.
  intros Hf Him Hbg Hseg Hout Hpng.
  destruct (main_run remove Image_open getrgb save_PNG w ui f im bg Hf Him Hbg)
    as (h' & Hrun).
  exists h'. rewrite Hrun. unfold process_elements.
  by rewrite Hseg, Hout, Hpng.
Qed.

(** The objects of the store are left alone by a run on an upload that
    decodes. *)
Lemma main_run_heap w ui (f : bytes) im (bg : option color) l :
  uploaded_file ui = Some f →
  Image_open f = inr im →
  selected getrgb ui bg →
  l < length (heap w) →
  heap (main remove Image_open getrgb save_PNG ui w).2 !! l = heap w !! l.
Proof.
  intros Hf Him Hbg Hl. unfold main.
  do 6 emit.
  erewrite bind_ok by (by apply pick_background_color_run).
  cbn [heap page]. rewrite Hf. cbv beta iota.
  match goal with
  | |- context [bind _ _ ?W] =>
      destruct (handle_upload_run remove Image_open save_PNG W f im bg Him)
        as (h' & Hrun);
      assert (Hheap : heap (handle_upload remove Image_open save_PNG f bg W).2
                      !! l = heap w !! l)
  end.
  { unfold handle_upload. rewrite Him. simpl.
    erewrite bind_ok by reflexivity.
    erewrite bind_ok by reflexivity. cbn [heap page].
    erewrite bind_ok by (apply deref_ok; simpl; by apply list_lookup_middle).
    emit. emit.
    rewrite process_heap.
    match goal with
    | |- context [remove_background _ ?r ?c ?W] =>
        destruct (remove_background_frame remove W r im c) as [Hframe _];
          [simpl; by apply list_lookup_middle|]
    end.
    rewrite Hframe by (simpl; rewrite length_app; simpl; lia).
    simpl. by apply lookup_app_l. }
  rewrite Hrun in Hheap. simpl in Hheap.
  erewrite bind_ok by exact Hrun. by simpl.
Qed.

(** A run of [main], whatever it is given and however it ends, adds to
    the page without touching what was on it and leaves every image
    object that existed before as it was. *)
Theorem main_only_appends w ui :
  (∃ shown, page (main remove Image_open getrgb save_PNG ui w).2
            = page w ++ shown)
  ∧ ∀ l, l < length (heap w) →
      heap (main remove Image_open getrgb save_PNG ui w).2 !! l = heap w !! l.
Proof.
  destruct (String.eqb (background_option ui) "Custom Color") eqn:Hopt.
  - apply String.eqb_eq in Hopt.
    destruct (getrgb (color_input ui)) as [e|c] eqn:Hc.
    { rewrite (main_color_error w ui e Hopt Hc). simpl.
      split; [by eexists|done]. }
    assert (Hbg : selected getrgb ui (Some c)) by done.
    destruct (uploaded_file ui) as [f|] eqn:Hf.
    + destruct (Image_open f) as [e|im] eqn:Him.
      * rewrite (main_decode_error remove Image_open getrgb save_PNG
                   w ui f e (Some c) Hf Him Hbg).
        simpl. split; [by eexists|done].
      * split; [|intros l Hl; by eapply main_run_heap].
        destruct (main_run remove Image_open getrgb save_PNG w ui f im (Some c)
                    Hf Him Hbg) as (h' & ->).
        by eexists.
    + rewrite (main_no_upload w ui (Some c) Hf Hbg). simpl.
      split; [by eexists|done].
  - apply String.eqb_neq in Hopt.
    assert (Hbg : selected getrgb ui None) by done.
    destruct (uploaded_file ui) as [f|] eqn:Hf.
    + destruct (Image_open f) as [e|im] eqn:Him.
      * rewrite (main_decode_error remove Image_open getrgb save_PNG
                   w ui f e None Hf Him Hbg).
        simpl. split; [by eexists|done].
      * split; [|intros l Hl; by eapply main_run_heap].
        destruct (main_run remove Image_open getrgb save_PNG w ui f im None
                    Hf Him Hbg) as (h' & ->).
        by eexists.
    + rewrite (main_no_upload w ui None Hf Hbg). simpl.
      split; [by eexists|done].
Qed.

End ScriptMore.

(** * The further properties on sample data *)

Module MoreSamples.
Import Example Example2.
Local Open Scope Z_scope.

Lemma oracle_failure_propagates_sample :
  remove_background broken 0%nat (Some lime) w0
  = (inl (Exception "onnxruntime: model not found"),
     World [photo; PIL.convert_RGBA photo] []).
Proof.
  apply (oracle_failure_propagates broken w0 0%nat photo (Some lime)
           (Exception "onnxruntime: model not found")).
  - reflexivity.
  - reflexivity.
Defined.

(** The subject pixel of the photo keeps its colour on the lime canvas. *)
Lemma foreground_pixel_kept_sample :
  ∃ l w' out,
    remove_background cutout 0%nat (Some lime) w0 = (inr l, w')
    ∧ heap w' !! l = Some out
    ∧ getpixel out 0%nat 0%nat = Some (Pixel 200 10 10 255).
Proof.
  apply (foreground_pixel_kept cutout w0 0%nat photo lime cut 0%nat 0%nat
           (Pixel 200 10 10 255)).
  - reflexivity.
  - reflexivity.
  - split; [reflexivity|]. repeat constructor.
  - reflexivity.
  - reflexivity.
  - unfold rgba_ok, Imaging.is_uint8. simpl. lia.
  - reflexivity.
Defined.

Lemma colored_output_covers_input_sample :
  ∃ l w' out,
    remove_background thumbnail 0%nat (Some lime) w0 = (inr l, w')
    ∧ heap w' !! l = Some out
    ∧ mode out = Mode_RGBA
    ∧ ∀ x y, is_Some (getpixel out x y) ↔ (x < 2)%nat ∧ (y < 1)%nat.
Proof.
  apply (colored_output_covers_input thumbnail w0 0%nat photo lime
           (mkArray (1%nat, 1%nat) [[Pixel 9 9 9 255]])).
  - reflexivity.
  - reflexivity.
Defined.

(** For an RGBA input and no colour the output still is object 1, not
    the caller's object 0. *)
Lemma output_is_a_new_object_sample :
  (1 ≤ 1)%nat ∧ 1%nat ≠ 0%nat
  ∧ heap (World [sticker] []) !! 1%nat = None
  ∧ is_Some (heap (World [sticker; fromarray
                            (mkArray (1%nat, 2%nat)
                               [[Pixel 200 10 10 255; Pixel 0 0 0 0]])] [])
             !! 1%nat).
Proof.
  apply (output_is_a_new_object cutout (World [sticker] []) 0%nat sticker None
           1%nat
           (World [sticker; fromarray
                     (mkArray (1%nat, 2%nat)
                        [[Pixel 200 10 10 255; Pixel 0 0 0 0]])] [])).
  - reflexivity.
  - reflexivity.
Defined.

Lemma colored_output_is_transparent_output_on_canvas_sample :
  ∃ l1 w1 t l2 w2 out,
    remove_background cutout 0%nat None w0 = (inr l1, w1)
    ∧ heap w1 !! l1 = Some t
    ∧ remove_background cutout 0%nat (Some lime) w0 = (inr l2, w2)
    ∧ heap w2 !! l2 = Some out
    ∧ Paste.paste (PIL.new_RGBA (2%nat, 1%nat) lime) t (0%nat, 0%nat) t = inr out.
Proof.
  apply (colored_output_is_transparent_output_on_canvas cutout w0 0%nat photo
           lime cut).
  - reflexivity.
  - reflexivity.
Defined.

Lemma rgb_input_reaches_oracle_unchanged_sample :
  ∃ a : ndarray,
    np_array_of (normalize photo) = inr a
    ∧ handed_to_oracle cutout 0%nat w0 a
    ∧ item a 0%nat 1%nat = Some (Pixel 5 5 5 255).
Proof.
  apply (rgb_input_reaches_oracle_unchanged cutout w0 0%nat photo
           [[(200, 10, 10); (5, 5, 5)]] 1%nat 0%nat 5 5 5).
  - reflexivity.
  - reflexivity.
  - reflexivity.
Defined.

Lemma transparency_key_reaches_oracle_as_alpha_sample :
  ∃ a : ndarray,
    np_array_of (normalize keyed) = inr a
    ∧ handed_to_oracle echo 0%nat (World [keyed] []) a
    ∧ item a 0%nat 1%nat = Some (Pixel 5 5 5 0).
Proof.
  apply (transparency_key_reaches_oracle_as_alpha echo (World [keyed] [])
           0%nat keyed [[(200, 10, 10); (5, 5, 5)]] (5, 5, 5) 1%nat 0%nat
           (5, 5, 5)).
  - reflexivity.
  - reflexivity.
  - unfold color_ok, Imaging.is_uint8. lia.
  - reflexivity.
Defined.

Lemma rgba_input_is_used_as_is_sample :
  np_array_of sticker
  = inr (mkArray (1%nat, 2%nat) [[Pixel 200 10 10 255; Pixel 7 8 9 40]])
  ∧ segment cutout sticker
    = cutout (mkArray (1%nat, 2%nat) [[Pixel 200 10 10 255; Pixel 7 8 9 40]])
  ∧ remove_background cutout 0%nat None (World [sticker] [])
    = (inr 1%nat,
       World [sticker; fromarray (mkArray (1%nat, 2%nat)
                                    [[Pixel 200 10 10 255; Pixel 0 0 0 0]])] []).
Proof.
  apply (rgba_input_is_used_as_is cutout (World [sticker] []) 0%nat sticker
           (mkArray (1%nat, 2%nat) [[Pixel 200 10 10 255; Pixel 0 0 0 0]])).
  - reflexivity.
  - reflexivity.
  - reflexivity.
Defined.

(** No upload, "Custom Color": widgets, picker and help, nothing else;
    the decoder and the oracle that would fail are never asked. *)
Lemma no_upload_shows_widgets_only_sample :
  main broken cannot_open getrgb save_fails idle_session blank
  = (inr tt,
     World [] ([] ++ header_elements ++ picker_elements (Some lime)
               ++ [(Sidebar, El_info how_to_use)])).
Proof.
  apply (no_upload_shows_widgets_only broken cannot_open getrgb save_fails
           blank idle_session (Some lime)).
  - reflexivity.
  - split; reflexivity.
Defined.

Lemma color_parse_failure_escapes_sample :
  main cutout open_photo getrgb save_stub bad_color_session blank
  = (inl (Exception "unknown color specifier"),
     World [] ([] ++ header_elements
               ++ [(Page, El_color_picker "Choose background color" "#FFFFFF")])).
Proof.
  apply (color_parse_failure_escapes cutout open_photo getrgb save_stub
           blank bad_color_session (Exception "unknown color specifier")).
  - reflexivity.
  - reflexivity.
Defined.

Lemma transparent_option_ignores_color_sample :
  main cutout open_photo (λ _, inl (Exception "never asked")) save_stub
    (Session (Some upload) "Transparent" "not a colour") blank
  = main cutout open_photo getrgb save_stub transparent_session blank.
Proof.
  apply (transparent_option_ignores_color cutout open_photo getrgb save_stub
           blank transparent_session (λ _, inl (Exception "never asked"))
           "not a colour").
  simpl. discriminate.
Defined.

Lemma segmentation_failure_page_sample :
  ∃ h', main broken open_photo getrgb save_stub transparent_session blank
        = (inr tt,
           World h' ([] ++ header_elements ++ picker_elements None
                     ++ [ (Column 0, El_subheader "Original Image");
                          (Column 0, El_image photo true);
                          (Page, El_error
                             ("An error occurred: "
                              ++ str (Exception "onnxruntime: model not found")));
                          (Sidebar, El_info how_to_use) ])).
Proof.
  apply (segmentation_failure_page broken open_photo getrgb save_stub
           blank transparent_session upload photo None
           (Exception "onnxruntime: model not found")).
  - reflexivity.
  - reflexivity.
  - simpl. discriminate.
  - reflexivity.
Defined.

Lemma encoding_failure_page_sample :
  ∃ h', main cutout open_photo getrgb save_fails transparent_session blank
        = (inr tt,
           World h' ([] ++ header_elements ++ picker_elements None
                     ++ [ (Column 0, El_subheader "Original Image");
                          (Column 0, El_image photo true);
                          (Column 1, El_subheader "Processed Image");
                          (Column 1, El_image (fromarray cut) true);
                          (Page, El_error
                             ("An error occurred: "
                              ++ str (Exception "cannot write mode")));
                          (Sidebar, El_info how_to_use) ])).
Proof.
  apply (encoding_failure_page cutout open_photo getrgb save_fails
           blank transparent_session upload photo None cut (fromarray cut)
           (Exception "cannot write mode")).
  - reflexivity.
  - reflexivity.
  - simpl. discriminate.
  - reflexivity.
  - reflexivity.
  - reflexivity.
Defined.

End MoreSamples.

(** * The script under a host that may raise *)

Section HostScript.
Variable host : container → element → option exn.
Variable remove : ndarray → exn + ndarray.
Variable Image_open : bytes → exn + Image.
Variable getrgb : string → exn + color.
Variable save_PNG : Image → exn + bytes.
Implicit Types (w : world) (r l : loc) (im : Image) (e : exn) (ui : session).



(** Under the host that never raises the script is [main]. *)
Lemma main_on_quiet ui :
  main_on remove Image_open getrgb save_PNG (λ _ _, None) ui
  = main remove Image_open getrgb save_PNG ui.
Proof. reflexivity. Qed.








End HostScript.

Module HostSamples.
Import Example.


End HostSamples.
